(** * Deep Security AWS Config rule: is the instance protected by a control?

    A shallow embedding of [aws_config_rule_handler] from
    [rules/ds-IsInstanceProtectedBy/dsIsInstanceProtectedBy.py], and the
    properties of it stated by the specification.

    The handler is one Python function.  It is embedded phase by phase, in
    source order, as functions in a small monad that records the calls made
    to the collaborators (credentials resolver, Deep Security manager, AWS
    Config client) and distinguishes falling through to the next statement,
    an early [return] and a raised exception. *)

From Stdlib Require Import ZArith NArith String Ascii List Bool Lia.
From Stdlib Require Import Floats.SpecFloat.
From stdpp Require Import gmap strings list fin_maps.

Set Warnings "-register-all".
Local Open Scope string_scope.

(** ** Python values *)

(** The values an event decoded from JSON is made of.  A [dict] with string
    keys is a finite map; [float] is kept apart from [int] because the two
    have different zero tests. *)
Inductive pyval : Type :=
  | PNone
  | PBool (b : bool)
  | PInt (z : Z)
  | PFloat (f : spec_float)
  | PStr (s : string)
  | PList (l : list pyval)
  | PDict (d : gmap string pyval).

Abbreviation dict := (gmap string pyval).

(** Exceptions.  Every constructor stands for a subclass of Python's
    [Exception], which is what the two [except Exception] clauses of the
    handler catch; [Error] is an exception raised by a collaborator. *)
Inductive exn : Type :=
  | KeyError (key : string)
  | TypeError
  | AttributeError
  | ValueError
  | UnboundLocalError
  | Error (msg : string).

(** An expression either raises or has a value. *)
Definition result (A : Type) : Type := exn + A.

Definition ok {A} (a : A) : result A := inr a.
Definition raise {A} (e : exn) : result A := inl e.

Definition result_bind {A B} (r : result A) (f : A → result B) : result B :=
  match r with
  | inl e => inl e
  | inr a => f a
  end.

#[global] Instance result_ret : MRet result := @ok.
#[global] Instance result_mbind : MBind result := λ A B f r, result_bind r f.

(** ** Strings: [in], and [str.lower] and [str.strip] on ASCII text

    [Str.lower] and [Str.strip] are what Python's [lower()] and [strip()] do
    on text made of ASCII characters.  The handler uses [Str.lower] where it
    compares a lowercased text with an ASCII constant (control names,
    resource type, status patterns, truth words).  Where it compares two
    arbitrary texts, the instance ids of lines 97 and 99, the operations are
    those of the Python runtime on any text, which come with the
    environment ([str_lower] and [str_strip] of [Env] below). *)

Module Str.

(** [lower] on ASCII letters; other characters are left as they are. *)
Definition lower_ascii (c : ascii) : ascii :=
  let n := N_of_ascii c in
  if ((65 <=? n) && (n <=? 90))%N then ascii_of_N (n + 32) else c.

Fixpoint lower (s : string) : string :=
  match s with
  | EmptyString => EmptyString
  | String c r => String (lower_ascii c) (lower r)
  end.

(** The ASCII characters [str.strip()] removes: tab, line feed, vertical
    tab, form feed, carriage return, the four separators 28..31, space. *)
Definition is_space (c : ascii) : bool :=
  let n := N_of_ascii c in
  (((9 <=? n) && (n <=? 13)) || ((28 <=? n) && (n <=? 32)))%N.

Fixpoint lstrip (s : string) : string :=
  match s with
  | EmptyString => EmptyString
  | String c r => if is_space c then lstrip r else s
  end.

Fixpoint rstrip (s : string) : string :=
  match s with
  | EmptyString => EmptyString
  | String c r =>
      match rstrip r with
      | EmptyString => if is_space c then EmptyString else String c EmptyString
      | r' => String c r'
      end
  end.

Definition strip (s : string) : string := lstrip (rstrip s).

(** [sub in s] for two strings: [sub] occurs in [s] as a substring. *)
Fixpoint contains (sub s : string) : bool :=
  String.prefix sub s ||
  match s with
  | EmptyString => false
  | String _ r => contains sub r
  end.

Definition nonempty (s : string) : bool :=
  match s with
  | EmptyString => false
  | String _ _ => true
  end.

End Str.

Arguments Str.lower : simpl never.
Arguments Str.strip : simpl never.
Arguments Str.contains : simpl never.

(** ** Operations on values *)

(** Truth value of an object, as tested by [if x:]. *)
Definition truthy (v : pyval) : bool :=
  match v with
  | PNone => false
  | PBool b => b
  | PInt z => negb (z =? 0)%Z
  | PFloat f => match f with S754_zero _ => false | _ => true end
  | PStr s => Str.nonempty s
  | PList l => match l with [] => false | _ => true end
  | PDict d => match map_to_list d with [] => false | _ => true end
  end.

Definition is_str (s : string) (v : pyval) : bool :=
  match v with
  | PStr t => String.eqb s t
  | _ => false
  end.

(** [key in d] for a dict. *)
Definition has (d : dict) (key : string) : bool := bool_decide (is_Some (d !! key)).
Arguments has : simpl never.

(** [key in container], for a string [key]: key membership for a dict,
    element membership for a list, substring test for a string; any other
    value is not iterable. *)
Definition py_contains (container : pyval) (key : string) : result bool :=
  match container with
  | PDict d => ok (has d key)
  | PList l => ok (existsb (is_str key) l)
  | PStr s => ok (Str.contains key s)
  | _ => raise TypeError
  end.

(** [container[key]], for a string [key]: only a dict can be indexed by a
    string. *)
Definition py_getitem (container : pyval) (key : string) : result pyval :=
  match container with
  | PDict d =>
      match d !! key with
      | Some v => ok v
      | None => raise (KeyError key)
      end
  | _ => raise TypeError
  end.

(** [v.lower()]: only strings have the method. *)
Definition py_lower (v : pyval) : result string :=
  match v with
  | PStr s => ok (Str.lower s)
  | _ => raise AttributeError
  end.

(** [container[key] if key in container else default] *)
Definition get_or (container : pyval) (key : string) (default : pyval) : result pyval :=
  b ← py_contains container key;
  if b : bool then py_getitem container key else ok default.

(** [distutils.util.strtobool] *)
Definition strtobool (val : pyval) : result pyval :=
  val ← py_lower val;
  if existsb (String.eqb val) ["y"; "yes"; "t"; "true"; "on"; "1"] then ok (PInt 1)
  else if existsb (String.eqb val) ["n"; "no"; "f"; "false"; "off"; "0"] then ok (PInt 0)
  else raise ValueError.

(** ** Collaborators *)

(** Modelled from the spec: the host record class of [src.deepsecurity] is
    not part of the sources at hand.  A managed host record "holds a cloud
    instance id and one status string per control type"; the instance id
    may be [None]. *)
Record Computer : Type := {
  cloud_object_instance_id : option string;
  overall_anti_malware_status : string;
  overall_web_reputation_status : string;
  overall_firewall_status : string;
  overall_intrusion_prevention_status : string;
  overall_integrity_monitoring_status : string;
  overall_log_inspection_status : string
}.

(** [getattr(details, 'overall_{}_status'.format(control_key))] *)
Definition getattr_status (details : Computer) (control_key : string) : result string :=
  if String.eqb control_key "anti_malware" then ok (overall_anti_malware_status details)
  else if String.eqb control_key "web_reputation" then ok (overall_web_reputation_status details)
  else if String.eqb control_key "firewall" then ok (overall_firewall_status details)
  else if String.eqb control_key "intrusion_prevention" then ok (overall_intrusion_prevention_status details)
  else if String.eqb control_key "integrity_monitoring" then ok (overall_integrity_monitoring_status details)
  else if String.eqb control_key "log_inspection" then ok (overall_log_inspection_status details)
  else raise AttributeError.

(** The object [Credentials(username_key, password_key)]. *)
Record Credentials : Type := {
  username_key : pyval;
  password_key : pyval
}.

(** The object [Manager(username=..., password=..., tenant=..., hostname=...,
    port=..., ignore_ssl_validation=...)].  It defines neither [__bool__] nor
    [__len__] in the interface the spec gives, so it is true in [if mgr:]. *)
Record Manager : Type := {
  username : pyval;
  password : pyval;
  tenant : pyval;
  hostname : pyval;
  port : pyval;
  ignore_ssl_validation : pyval
}.

(** One entry of [Evaluations]; [Annotation] is a key the dict may lack. *)
Record Evaluation : Type := {
  ComplianceResourceType : pyval;
  ComplianceResourceId : pyval;
  ComplianceType : string;
  OrderingTimestamp : Z;
  Annotation : option string
}.

(** What the world outside the handler answers during one invocation.  Each
    collaborator method is called at most once per invocation, so a function
    of the receiver and the arguments describes any behaviour, stateful or
    not.  [boto3.client] builds a local object and [datetime.now] reads the
    clock; the other calls may raise.  [str_lower] and [str_strip] are the
    methods [lower()] and [strip()] of the runtime's text type on arbitrary
    text: they follow the Unicode tables of the runtime (case mappings,
    white space), which are not part of the sources. *)
Record Env : Type := {
  str_lower : string → string;
  str_strip : string → string;
  json_loads : string → result pyval;
  Credentials_init : Credentials → result unit;
  get_username : Credentials → result pyval;
  get_password : Credentials → result pyval;
  Manager_init : Manager → result unit;
  sign_in : Manager → result unit;
  computers_get : Manager → result (list (pyval * Computer));
  sign_out : Manager → result unit;
  put_evaluations : list Evaluation → pyval → result pyval;
  datetime_now : Z
}.

(** The calls a run makes to its collaborators, in order. *)
Inductive call : Type :=
  | CallCredentials (c : Credentials)
  | CallGetUsername (c : Credentials)
  | CallGetPassword (c : Credentials)
  | CallManager (m : Manager)
  | CallSignIn (m : Manager)
  | CallComputersGet (m : Manager)
  | CallSignOut (m : Manager)
  | CallBoto3Client (service : string)
  | CallPutEvaluations (Evaluations : list Evaluation) (ResultToken : pyval).

Definition is_put_evaluations (c : call) : bool :=
  match c with
  | CallPutEvaluations _ _ => true
  | _ => false
  end.

(** ** The monad of the handler's statements *)

(** A statement falls through with a value, returns from the handler, or
    raises. *)
Inductive outcome (A : Type) : Type :=
  | Normal (a : A)
  | Return (r : gmap string pyval)
  | Raise (e : exn).
Arguments Normal {A} a.
Arguments Return {A} r.
Arguments Raise {A} e.

Definition M (A : Type) : Type := list call * outcome A.

Definition M_bind {A B} (m : M A) (f : A → M B) : M B :=
  match m with
  | (tr, Normal a) => let '(tr', o) := f a in ((tr ++ tr')%list, o)
  | (tr, Return r) => (tr, Return r)
  | (tr, Raise e) => (tr, Raise e)
  end.

#[global] Instance M_ret : MRet M := λ A a, ([], Normal a).
#[global] Instance M_mbind : MBind M := λ A B f m, M_bind m f.

(** [return r] *)
Definition return_ {A} (r : gmap string pyval) : M A := ([], Return r).

(** An expression that calls no collaborator. *)
Definition pure {A} (r : result A) : M A :=
  match r with
  | inl e => ([], Raise e)
  | inr a => ([], Normal a)
  end.

(** A call to a collaborator, with the answer it gives. *)
Definition invoke {A} (c : call) (r : result A) : M A :=
  match r with
  | inl e => ([c], Raise e)
  | inr a => ([c], Normal a)
  end.

(** [try: body except Exception as err: handler] *)
Definition try_except {A} (body : M A) (handler : exn → M A) : M A :=
  match body with
  | (tr, Raise e) => let '(tr', o) := handler e in ((tr ++ tr')%list, o)
  | other => other
  end.

(** What the caller of the handler sees. *)
Definition finish (m : M (gmap string pyval)) : list call * result (gmap string pyval) :=
  match m with
  | (tr, Normal r) => (tr, ok r)
  | (tr, Return r) => (tr, ok r)
  | (tr, Raise e) => (tr, raise e)
  end.

(** ** The handler, in source order

    [print] writes to the log and takes no part in the control flow or in
    the value returned; the embedding keeps of a [print] only the argument
    whose evaluation can raise (the [lower()] of line 97). *)

(** [a and b], [a or b], [not a] on expressions that may raise; the right
    operand is not looked at when the left one decides. *)
Definition py_and (a b : result bool) : result bool :=
  x ← a; if x : bool then b else ok false.

Definition py_or (a b : result bool) : result bool :=
  x ← a; if x : bool then ok true else b.

Definition py_not (a : result bool) : result bool :=
  x ← a; ok (negb x).

(** Lines 33-38: the event must come from AWS Config Rules. *)
Definition required_keys (event : dict) : M unit :=
  if negb (has event "invokingEvent") ||
     negb (has event "ruleParameters") ||
     negb (has event "resultToken") ||
     negb (has event "eventLeftScope")
  then return_ {[ "result" := PStr "error" ]}
  else mret tt.

(** [type(v) == type({})] *)
Definition is_dict (v : pyval) : bool :=
  match v with
  | PDict _ => true
  | _ => false
  end.

(** [json.loads(v)]: the argument has to be text. *)
Definition py_json_loads (env : Env) (v : pyval) : result pyval :=
  match v with
  | PStr s => json_loads env s
  | _ => raise TypeError
  end.

(** Lines 41 and 42, for one key:
    [if key in event and not type(event[key]) == type({}): event[key] = json.loads(event[key])] *)
Definition deserialize (env : Env) (key : string) (event : dict) : result dict :=
  match event !! key with
  | Some v =>
      if negb (is_dict v)
      then v' ← py_json_loads env v; ok (<[key := v']> event)
      else ok event
  | None => ok event
  end.

Definition valid_controls : list string :=
  ["anti_malware"; "web_reputation"; "firewall"; "intrusion_prevention";
   "integrity_monitoring"; "log_inspection"].

Definition credentials_message : string :=
  "Function requires that you at least pass dsUsernameKey, dsPasswordKey, and either dsTenant or dsHostname".

Definition control_message : string :=
  "Function requires that you specify the desired Deep Security control to verify. Valid choices are [ anti_malware, web_reputation, firewall, intrusion_prevention, integrity_monitoring, log_inspection ]".

(** Lines 46-48, the condition under which the credentials are reported
    missing. *)
Definition credentials_missing (rp : pyval) : result bool :=
  py_and (py_not (py_contains rp "dsUsernameKey"))
    (py_and (py_not (py_contains rp "dsPasswordKey"))
       (py_or (py_not (py_contains rp "dsTenant"))
              (py_not (py_contains rp "dsHostname")))).

(** Lines 56-57, the condition under which the control is rejected. *)
Definition control_invalid (rp : pyval) : result bool :=
  py_or (py_not (py_contains rp "dsControl"))
    (v ← py_getitem rp "dsControl";
     c ← py_lower v;
     ok (negb (existsb (String.eqb c) valid_controls))).

(** Lines 46-54: the credentials, resolved from the two lookup keys.  The
    value is the pair [(ds_username, ds_password)]. *)
Definition resolve_credentials (env : Env) (rp : pyval) : M (pyval * pyval) :=
  missing ← pure (credentials_missing rp);
  if missing : bool
  then return_ {[ "requirements_not_met" := PStr credentials_message ]}
  else
    uk ← pure (py_getitem rp "dsUsernameKey");
    pk ← pure (py_getitem rp "dsPasswordKey");
    let credentials := {| username_key := uk; password_key := pk |} in
    invoke (CallCredentials credentials) (Credentials_init env credentials);;
    ds_username ← invoke (CallGetUsername credentials) (get_username env credentials);
    ds_password ← invoke (CallGetPassword credentials) (get_password env credentials);
    mret (ds_username, ds_password).

(** Lines 56-58: the control to verify. *)
Definition require_control (rp : pyval) : M unit :=
  invalid ← pure (control_invalid rp);
  if invalid : bool
  then return_ {[ "requirements_not_met" := PStr control_message ]}
  else mret tt.

(** Lines 45-58, the body of [if 'ruleParameters' in event:].  Without the
    key the two names [ds_username] and [ds_password] stay unbound, which is
    the value [None] here. *)
Definition rule_parameters (env : Env) (event : dict) : M (option (pyval * pyval)) :=
  match event !! "ruleParameters" with
  | Some rp =>
      credentials ← resolve_credentials env rp;
      require_control rp;;
      mret (Some credentials)
  | None => mret None
  end.

(** Lines 41-42: the two blocks, deserialized when they came as text. *)
Definition deserialize_blocks (env : Env) (event : dict) : result dict :=
  event ← deserialize env "ruleParameters" event;
  deserialize env "invokingEvent" event.

(** Lines 33-58: everything that can reject the event.  The value is the
    event with its two blocks deserialized, and the resolved credentials. *)
Definition validate (env : Env) (event : dict) : M (dict * option (pyval * pyval)) :=
  required_keys event;;
  event ← pure (deserialize_blocks env event);
  credentials ← rule_parameters env event;
  mret (event, credentials).

Definition ec2_instance : string := "AWS::EC2::Instance".

(** Lines 61-69: the instance the event is about, [None] when it is not
    about an EC2 instance. *)
Definition scope_filter (event : dict) : result pyval :=
  match event !! "invokingEvent" with
  | Some invoking_event =>
      b ← py_contains invoking_event "configurationItem";
      if b : bool then
        item ← py_getitem invoking_event "configurationItem";
        is_ec2 ←
          py_and (py_contains item "resourceType")
            (rt ← py_getitem item "resourceType";
             t ← py_lower rt;
             ok (String.eqb t (Str.lower ec2_instance)));
        if is_ec2 : bool
        then get_or item "resourceId" PNone
        else ok PNone
      else ok PNone
  | None => ok PNone
  end.

(** Lines 86-93 *)
Definition control_names : gmap string string :=
  <["anti_malware" := "Anti-Malware"]> (
  <["web_reputation" := "Web Reputation"]> (
  <["firewall" := "Firewall"]> (
  <["intrusion_prevention" := "Intrusion Prevention"]> (
  <["integrity_monitoring" := "Integrity Monitoring"]> (
  <["log_inspection" := "Log Inspection"]> ∅))))).

(** [control_names[control_key]] *)
Definition control_name (control_key : string) : result string :=
  match control_names !! control_key with
  | Some name => ok name
  | None => raise (KeyError control_key)
  end.

(** Line 99: [details.cloud_object_instance_id and
    (details.cloud_object_instance_id.lower().strip() == instance_id.lower().strip())];
    [target] is [instance_id.lower().strip()].  Both sides are arbitrary
    text, lowercased and trimmed by the runtime. *)
Definition host_matches (env : Env) (target : string) (details : Computer) : bool :=
  match cloud_object_instance_id details with
  | Some id => Str.nonempty id && String.eqb (str_strip env (str_lower env id)) target
  | None => false
  end.

(** Lines 104-115: the condition under which [is_protected] is set. *)
Definition status_protects (control_key control_status : string) : bool :=
  if existsb (String.eqb control_key) ["anti_malware"; "integrity_monitoring"] then
    Str.contains (Str.lower "On, Real Time") (Str.lower control_status) ||
    Str.contains (Str.lower " On, Security Update In Progress, Real Time") (Str.lower control_status)
  else if existsb (String.eqb control_key) ["intrusion_prevention"] then
    Str.contains (Str.lower "On, Prevent") (Str.lower control_status)
  else
    Str.contains (Str.lower "On") (Str.lower control_status).

(** "{} status: {}".format(name, control_status) *)
Definition format_status (name control_status : string) : string :=
  name ++ " status: " ++ control_status.

(** Lines 99-115: the body of the loop, on the two variables it assigns. *)
Definition visit (env : Env) (control_key target : string) (details : Computer)
    (st : bool * string) : result (bool * string) :=
  let '(is_protected, detailed_msg) := st in
  if host_matches env target details then
    control_status ← getattr_status details control_key;
    name ← control_name control_key;
    let detailed_msg := format_status name control_status in
    ok (if status_protects control_key control_status then true else is_protected,
        detailed_msg)
  else ok (is_protected, detailed_msg).

(** Lines 98-115: [for comp_id, details in mgr.computers.items()] *)
Fixpoint scan (env : Env) (control_key target : string) (computers : list (pyval * Computer))
    (st : bool * string) : result (bool * string) :=
  match computers with
  | [] => ok st
  | (comp_id, details) :: rest =>
      st ← visit env control_key target details st;
      scan env control_key target rest st
  end.

(** Lines 77-83.  [mgr] is bound by the first statement of the [try] block:
    an exception of [Manager(...)] leaves it [None], an exception of
    [sign_in()] leaves it bound to the manager.  Both are swallowed by the
    [except] clause, and so is the error of reading the unbound
    [ds_username], raised before anything is called. *)
Definition authenticate (env : Env) (credentials : option (pyval * pyval))
    (ds_tenant ds_hostname ds_port ds_ignore_ssl_validation : pyval) : M (option Manager) :=
  match credentials with
  | None => try_except (pure (raise UnboundLocalError)) (λ err, mret None)
  | Some (ds_username, ds_password) =>
      let mgr := {| username := ds_username; password := ds_password;
                    tenant := ds_tenant; hostname := ds_hostname; port := ds_port;
                    ignore_ssl_validation := ds_ignore_ssl_validation |} in
      match Manager_init env mgr with
      | inl err => ([CallManager mgr], Normal None)
      | inr _ =>
          match sign_in env mgr with
          | inl err => ([CallManager mgr; CallSignIn mgr], Normal (Some mgr))
          | inr _ => ([CallManager mgr; CallSignIn mgr], Normal (Some mgr))
          end
      end
  end.

(** Lines 73-83: the connection parameters and the attempt to sign in.  The
    value is [mgr]. *)
Definition connect (env : Env) (event : dict) (credentials : option (pyval * pyval))
    : M (option Manager) :=
  rp ← pure (py_getitem (PDict event) "ruleParameters");
  ds_tenant ← pure (get_or rp "dsTenant" PNone);
  ds_hostname ← pure (get_or rp "dsHostname" PNone);
  ds_port ← pure (get_or rp "dsPort" (PInt 443));
  ds_ignore_ssl_validation ← pure (
    b ← py_contains rp "dsIgnoreSslValidation";
    if b : bool
    then v ← py_getitem rp "dsIgnoreSslValidation"; strtobool v
    else ok (PBool false));
  authenticate env credentials ds_tenant ds_hostname ds_port ds_ignore_ssl_validation.

(** [event['ruleParameters']['dsControl'].lower()] *)
Definition control_key_of (event : dict) : result string :=
  rp ← py_getitem (PDict event) "ruleParameters";
  v ← py_getitem rp "dsControl";
  py_lower v.

(** [instance_id.lower().strip()] *)
Definition target_of (env : Env) (instance_id : pyval) : result string :=
  match instance_id with
  | PStr s => ok (str_strip env (str_lower env s))
  | _ => raise AttributeError
  end.

(** Lines 86-117, the body of [if mgr:].  The value is the pair
    [(is_protected, detailed_msg)]. *)
Definition inspect (env : Env) (event : dict) (mgr : Manager) (instance_id : pyval)
    : M (bool * string) :=
  control_key ← pure (control_key_of event);
  computers ← invoke (CallComputersGet mgr) (computers_get env mgr);
  target ← pure (target_of env instance_id);
  st ← pure (scan env control_key target computers (false, ""));
  invoke (CallSignOut mgr) (sign_out env mgr);;
  mret st.

(** Lines 73-117, the body of [if instance_id:]. *)
Definition evaluate (env : Env) (event : dict) (credentials : option (pyval * pyval))
    (instance_id : pyval) : M (bool * string) :=
  mgr ← connect env event credentials;
  match mgr with
  | Some mgr => inspect env event mgr instance_id
  | None => mret (false, "")
  end.

(** Lines 127-129 *)
Definition compliance_type (is_protected : bool) : string :=
  if is_protected then "COMPLIANT" else "NON_COMPLIANT".

(** Lines 135-143: the evaluation sent to AWS Config. *)
Definition make_evaluation (env : Env) (resource_type resource_id : pyval)
    (compliance detailed_msg : string) : Evaluation :=
  {| ComplianceResourceType := resource_type;
     ComplianceResourceId := resource_id;
     ComplianceType := compliance;
     OrderingTimestamp := datetime_now env;
     Annotation := if Str.nonempty detailed_msg then Some detailed_msg else None |}.

(** Lines 120-123 *)
Definition initial_result (detailed_msg : string) : dict :=
  if Str.nonempty detailed_msg then {[ "annotation" := PStr detailed_msg ]} else ∅.

(** Lines 120-157: report the results back to AWS Config. *)
Definition report (env : Env) (event : dict) (instance_id : pyval)
    (is_protected : bool) (detailed_msg : string) : M dict :=
  let result := initial_result detailed_msg in
  invoke (CallBoto3Client "config") (ok tt);;
  if truthy instance_id then
    let compliance := compliance_type is_protected in
    try_except
      (invoking_event ← pure (py_getitem (PDict event) "invokingEvent");
       item ← pure (py_getitem invoking_event "configurationItem");
       resource_type ← pure (py_getitem item "resourceType");
       resource_id ← pure (py_getitem item "resourceId");
       let evaluation := make_evaluation env resource_type resource_id compliance detailed_msg in
       token ← pure (py_getitem (PDict event) "resultToken");
       response ← invoke (CallPutEvaluations [evaluation] token)
                         (put_evaluations env [evaluation] token);
       mret (<["response" := response]> (<["result" := PStr "success"]> result)))
      (λ err, mret (<["result" := PStr "failure"]> result))
  else mret result.

(** Lines 60-157: what the handler does with an event it has not rejected.
    [is_protected] and [detailed_msg] keep their initial values of lines
    29-30 when no instance id was found. *)
Definition evaluate_and_report (env : Env) (event : dict)
    (credentials : option (pyval * pyval)) : M dict :=
  instance_id ← pure (scope_filter event);
  '(is_protected, detailed_msg) ←
    (if truthy instance_id
     then evaluate env event credentials instance_id
     else mret (false, ""));
  report env event instance_id is_protected detailed_msg.

(** The entry point: the calls made, and the mapping returned or the
    exception raised. *)
Definition aws_config_rule_handler (env : Env) (event : dict)
    : list call * result dict :=
  finish (
    '(event, credentials) ← validate env event;
    evaluate_and_report env event credentials).

(** ** The classification rule, in the words of the specification *)

(** [pattern] occurs in [status] as a substring, case ignored. *)
Definition contains_ignoring_case (pattern status : string) : Prop :=
  ∃ before after : string,
    Str.lower status = before ++ Str.lower pattern ++ after.

(** Section 4.4, step 5 of the specification. *)
Definition protected_by_rule (control status : string) : Prop :=
  ((control = "anti_malware" ∨ control = "integrity_monitoring") ∧
   (contains_ignoring_case "On, Real Time" status ∨
    contains_ignoring_case " On, Security Update In Progress, Real Time" status))
  ∨ (control = "intrusion_prevention" ∧ contains_ignoring_case "On, Prevent" status)
  ∨ ((control = "web_reputation" ∨ control = "firewall" ∨ control = "log_inspection") ∧
     contains_ignoring_case "On" status).

(** A host record whose status for the control satisfies the control's
    rule. *)
Definition satisfies (control_key : string) (details : Computer) : Prop :=
  ∃ status, getattr_status details control_key = ok status ∧
            status_protects control_key status = true.

(** The annotation a host record gives rise to. *)
Definition annotation_of (control_key : string) (details : Computer) : result string :=
  control_status ← getattr_status details control_key;
  name ← control_name control_key;
  ok (format_status name control_status).

(** The last record of the inventory that matches the target. *)
Definition last_match (env : Env) (target : string) (computers : list (pyval * Computer))
    : option Computer :=
  last (List.filter (host_matches env target) (snd <$> computers)).

(** No call of a run is a compliance submission. *)
Definition no_submission (tr : list call) : Prop :=
  Forall (λ c, is_put_evaluations c = false) tr.

(** A statement whose calls hold no compliance submission. *)
Definition quiet {A} (m : M A) : Prop := no_submission m.1.

(** The verdict a run submitted: the [ComplianceType] of the evaluation in
    its last call, when that call is a submission of one evaluation. *)
Definition verdict (run : list call * result dict) : option string :=
  match last run.1 with
  | Some (CallPutEvaluations [evaluation] _) => Some (ComplianceType evaluation)
  | _ => None
  end.

(** ** Kinds of calls, and the ways a run can go *)

(** Calls to the Deep Security manager. *)
Definition is_manager_call (c : call) : bool :=
  match c with
  | CallManager _ | CallSignIn _ | CallComputersGet _ | CallSignOut _ => true
  | _ => false
  end.

(** Calls to AWS: building the Config client, and the submission. *)
Definition is_aws_call (c : call) : bool :=
  match c with
  | CallBoto3Client _ | CallPutEvaluations _ _ => true
  | _ => false
  end.

(** Calls to the credentials resolver. *)
Definition is_credentials_call (c : call) : bool :=
  match c with
  | CallCredentials _ | CallGetUsername _ | CallGetPassword _ => true
  | _ => false
  end.

(** Two events that the handler cannot tell apart: they agree on the three
    blocks it reads and on the presence of [eventLeftScope]. *)
Definition same_inputs (event1 event2 : dict) : Prop :=
  event1 !! "invokingEvent" = event2 !! "invokingEvent" ∧
  event1 !! "ruleParameters" = event2 !! "ruleParameters" ∧
  event1 !! "resultToken" = event2 !! "resultToken" ∧
  has event1 "eventLeftScope" = has event2 "eventLeftScope".

(** The result of the reporting step for a given answer of
    [put_evaluations] (lines 150-154). *)
Definition reported_result (answer : result pyval) (detailed_msg : string) : dict :=
  match answer with
  | inl err => <["result" := PStr "failure"]> (initial_result detailed_msg)
  | inr response =>
      <["response" := response]> (<["result" := PStr "success"]> (initial_result detailed_msg))
  end.

(** Line 76: the flag passed as [ignore_ssl_validation], for rule
    parameters that are a mapping. *)
Definition ssl_flag_of (rp : dict) : result pyval :=
  match rp !! "dsIgnoreSslValidation" with
  | Some v => strtobool v
  | None => ok (PBool false)
  end.

(** Lines 73-79: the manager built from resolved credentials, rule
    parameters that are a mapping, and the flag. *)
Definition manager_for (ds_username ds_password : pyval) (rp : dict) (flag : pyval) : Manager :=
  {| username := ds_username;
     password := ds_password;
     tenant := default PNone (rp !! "dsTenant");
     hostname := default PNone (rp !! "dsHostname");
     port := default (PInt 443) (rp !! "dsPort");
     ignore_ssl_validation := flag |}.

(** The ways the body of [if instance_id:] can go, with the calls made and
    the outcome of each. *)
Inductive evaluation_path (env : Env) (ev : dict) (credentials : option (pyval * pyval))
    (instance_id : pyval) : list call → outcome (bool * string) → Prop :=
  | ParametersRaise (e : exn) :
      connect env ev credentials = ([], Raise e) →
      evaluation_path env ev credentials instance_id [] (Raise e)
  | NoManager (tr : list call) :
      connect env ev credentials = (tr, Normal None) →
      Forall (λ c, match c with CallManager _ => True | _ => False end) tr →
      evaluation_path env ev credentials instance_id tr (Normal (false, ""))
  | InspectionRaises (mgr : Manager) (tr : list call) (e : exn) :
      connect env ev credentials = ([CallManager mgr; CallSignIn mgr], Normal (Some mgr)) →
      tr = [] ∨ tr = [CallComputersGet mgr] →
      evaluation_path env ev credentials instance_id
        ([CallManager mgr; CallSignIn mgr] ++ tr) (Raise e)
  | SignOutRaises (mgr : Manager) (e : exn) :
      connect env ev credentials = ([CallManager mgr; CallSignIn mgr], Normal (Some mgr)) →
      sign_out env mgr = raise e →
      evaluation_path env ev credentials instance_id
        [CallManager mgr; CallSignIn mgr; CallComputersGet mgr; CallSignOut mgr] (Raise e)
  | Inspected (mgr : Manager) (control_key target : string)
      (computers : list (pyval * Computer)) (st : bool * string) :
      connect env ev credentials = ([CallManager mgr; CallSignIn mgr], Normal (Some mgr)) →
      control_key_of ev = ok control_key →
      computers_get env mgr = ok computers →
      target_of env instance_id = ok target →
      scan env control_key target computers (false, "") = ok st →
      sign_out env mgr = ok tt →
      evaluation_path env ev credentials instance_id
        [CallManager mgr; CallSignIn mgr; CallComputersGet mgr; CallSignOut mgr] (Normal st).

(** The ways a run of the handler can go. *)
Inductive path (env : Env) (event : dict) : list call → result dict → Prop :=
  | Rejected (tr : list call) (r : dict) :
      validate env event = (tr, Return r) →
      path env event tr (ok r)
  | ValidationRaises (tr : list call) (e : exn) :
      validate env event = (tr, Raise e) →
      path env event tr (raise e)
  | ScopeRaises (tr : list call) (ev : dict) (credentials : option (pyval * pyval)) (e : exn) :
      validate env event = (tr, Normal (ev, credentials)) →
      scope_filter ev = raise e →
      path env event tr (raise e)
  | OutOfScope (tr : list call) (ev : dict) (credentials : option (pyval * pyval))
      (instance_id : pyval) :
      validate env event = (tr, Normal (ev, credentials)) →
      scope_filter ev = ok instance_id →
      truthy instance_id = false →
      path env event (tr ++ [CallBoto3Client "config"]) (ok ∅)
  | EvaluationRaises (tr tr1 : list call) (ev : dict) (credentials : option (pyval * pyval))
      (instance_id : pyval) (e : exn) :
      validate env event = (tr, Normal (ev, credentials)) →
      scope_filter ev = ok instance_id →
      truthy instance_id = true →
      evaluation_path env ev credentials instance_id tr1 (Raise e) →
      path env event (tr ++ tr1) (raise e)
  | Reported (tr tr1 : list call) (ev : dict) (credentials : option (pyval * pyval))
      (instance_id invoking_event item resource_type token : pyval)
      (is_protected : bool) (detailed_msg : string) :
      validate env event = (tr, Normal (ev, credentials)) →
      scope_filter ev = ok instance_id →
      truthy instance_id = true →
      evaluation_path env ev credentials instance_id tr1 (Normal (is_protected, detailed_msg)) →
      event !! "resultToken" = Some token →
      ev !! "invokingEvent" = Some invoking_event →
      py_getitem invoking_event "configurationItem" = ok item →
      py_getitem item "resourceType" = ok resource_type →
      let evaluation :=
        make_evaluation env resource_type instance_id (compliance_type is_protected)
          detailed_msg in
      path env event
        (tr ++ tr1 ++ [CallBoto3Client "config"; CallPutEvaluations [evaluation] token])
        (ok (reported_result (put_evaluations env [evaluation] token) detailed_msg)).

(** The three calls that resolve the credentials, in order. *)
Definition resolver_calls (c : Credentials) : list call :=
  [CallCredentials c; CallGetUsername c; CallGetPassword c].

(** The four calls to the manager, in order. *)
Definition manager_calls (mgr : Manager) : list call :=
  [CallManager mgr; CallSignIn mgr; CallComputersGet mgr; CallSignOut mgr].

(** The ways the checks of lines 33-58 can go. *)
Inductive validation_path (env : Env) (event : dict)
    : list call → outcome (dict * option (pyval * pyval)) → Prop :=
  | KeyMissing :
      event !! "invokingEvent" = None ∨ event !! "ruleParameters" = None ∨
      event !! "resultToken" = None ∨ event !! "eventLeftScope" = None →
      validation_path env event [] (Return {[ "result" := PStr "error" ]})
  | BlockRaises (e : exn) :
      required_keys event = ([], Normal tt) →
      deserialize_blocks env event = raise e →
      validation_path env event [] (Raise e)
  | CredentialsTestRaises (ev : dict) (rp : pyval) (e : exn) :
      required_keys event = ([], Normal tt) →
      deserialize_blocks env event = ok ev →
      ev !! "ruleParameters" = Some rp →
      credentials_missing rp = raise e →
      validation_path env event [] (Raise e)
  | CredentialsMissing (ev : dict) (rp : pyval) :
      required_keys event = ([], Normal tt) →
      deserialize_blocks env event = ok ev →
      ev !! "ruleParameters" = Some rp →
      credentials_missing rp = ok true →
      validation_path env event []
        (Return {[ "requirements_not_met" := PStr credentials_message ]})
  | CredentialKeyRaises (ev : dict) (rp : pyval) (e : exn) :
      required_keys event = ([], Normal tt) →
      deserialize_blocks env event = ok ev →
      ev !! "ruleParameters" = Some rp →
      credentials_missing rp = ok false →
      py_getitem rp "dsUsernameKey" = raise e ∨
      ((∃ v, py_getitem rp "dsUsernameKey" = ok v) ∧
       py_getitem rp "dsPasswordKey" = raise e) →
      validation_path env event [] (Raise e)
  | ResolverRaises (ev : dict) (rp : dict) (c : Credentials) (tr : list call) (e : exn) :
      required_keys event = ([], Normal tt) →
      deserialize_blocks env event = ok ev →
      ev !! "ruleParameters" = Some (PDict rp) →
      rp !! "dsUsernameKey" = Some (username_key c) →
      rp !! "dsPasswordKey" = Some (password_key c) →
      (tr = [CallCredentials c] ∧ Credentials_init env c = raise e) ∨
      (tr = [CallCredentials c; CallGetUsername c] ∧
       Credentials_init env c = ok tt ∧ get_username env c = raise e) ∨
      (tr = resolver_calls c ∧ Credentials_init env c = ok tt ∧
       (∃ u, get_username env c = ok u) ∧ get_password env c = raise e) →
      validation_path env event tr (Raise e)
  | ControlTestRaises (ev : dict) (rp : dict) (c : Credentials) (e : exn) :
      required_keys event = ([], Normal tt) →
      deserialize_blocks env event = ok ev →
      ev !! "ruleParameters" = Some (PDict rp) →
      rp !! "dsUsernameKey" = Some (username_key c) →
      rp !! "dsPasswordKey" = Some (password_key c) →
      control_invalid (PDict rp) = raise e →
      validation_path env event (resolver_calls c) (Raise e)
  | ControlInvalid (ev : dict) (rp : dict) (c : Credentials) :
      required_keys event = ([], Normal tt) →
      deserialize_blocks env event = ok ev →
      ev !! "ruleParameters" = Some (PDict rp) →
      rp !! "dsUsernameKey" = Some (username_key c) →
      rp !! "dsPasswordKey" = Some (password_key c) →
      control_invalid (PDict rp) = ok true →
      validation_path env event (resolver_calls c)
        (Return {[ "requirements_not_met" := PStr control_message ]})
  | Validated (ev : dict) (rp : dict) (c : Credentials) (ds_username ds_password : pyval) :
      required_keys event = ([], Normal tt) →
      deserialize_blocks env event = ok ev →
      ev !! "ruleParameters" = Some (PDict rp) →
      rp !! "dsUsernameKey" = Some (username_key c) →
      rp !! "dsPasswordKey" = Some (password_key c) →
      Credentials_init env c = ok tt →
      get_username env c = ok ds_username →
      get_password env c = ok ds_password →
      control_invalid (PDict rp) = ok false →
      validation_path env event (resolver_calls c)
        (Normal (ev, Some (ds_username, ds_password))).

(** ** Concrete events and environments *)

Module Sample.

Definition host (id : option string) (status : string) : Computer :=
  {| cloud_object_instance_id := id;
     overall_anti_malware_status := status;
     overall_web_reputation_status := status;
     overall_firewall_status := status;
     overall_intrusion_prevention_status := status;
     overall_integrity_monitoring_status := status;
     overall_log_inspection_status := status |}.

(** Every collaborator answers, except that [sign_in] and
    [computers.get] do as told.  The samples hold ASCII text only, on which
    [lower()] and [strip()] are [Str.lower] and [Str.strip]. *)
Definition env_with (sign_in_answer : result unit)
    (computers_answer : result (list (pyval * Computer))) : Env :=
  {| str_lower := Str.lower;
     str_strip := Str.strip;
     json_loads := λ _, raise ValueError;
     Credentials_init := λ _, ok tt;
     get_username := λ _, ok (PStr "admin");
     get_password := λ _, ok (PStr "secret");
     Manager_init := λ _, ok tt;
     sign_in := λ _, sign_in_answer;
     computers_get := λ _, computers_answer;
     sign_out := λ _, ok tt;
     put_evaluations := λ _ _, ok (PDict ∅);
     datetime_now := 0 |}.

(** Every collaborator answers; the inventory is [computers]. *)
Definition env (computers : list (pyval * Computer)) : Env :=
  env_with (ok tt) (ok computers).

Definition rule_parameters (control : string) : dict :=
  <["dsUsernameKey" := PStr "user-key"]> (
  <["dsPasswordKey" := PStr "password-key"]> (
  <["dsControl" := PStr control]> ∅)).

Definition item (resource_type : string) : dict :=
  <["resourceType" := PStr resource_type]> (
  <["resourceId" := PStr "i-0abc"]> ∅).

Definition event_of (rp item : dict) : dict :=
  <["invokingEvent" := PDict (<["configurationItem" := PDict item]> ∅)]> (
  <["ruleParameters" := PDict rp]> (
  <["resultToken" := PStr "token"]> (
  <["eventLeftScope" := PBool false]> ∅))).

(** An event about the EC2 instance [i-0abc]. *)
Definition event (control : string) : dict :=
  event_of (rule_parameters control) (item "AWS::EC2::Instance").

Definition credentials : Credentials :=
  {| username_key := PStr "user-key"; password_key := PStr "password-key" |}.

Definition manager : Manager :=
  {| username := PStr "admin"; password := PStr "secret";
     tenant := PNone; hostname := PNone; port := PInt 443;
     ignore_ssl_validation := PBool false |}.

Definition credential_calls : list call :=
  [CallCredentials credentials; CallGetUsername credentials; CallGetPassword credentials].

(** Rule parameters without [dsUsernameKey]. *)
Definition event_without_username : dict :=
  event_of (delete "dsUsernameKey" (rule_parameters "firewall")) (item "AWS::EC2::Instance").

(** Rule parameters without [dsPasswordKey]. *)
Definition event_without_password : dict :=
  event_of (delete "dsPasswordKey" (rule_parameters "firewall")) (item "AWS::EC2::Instance").

(** Rule parameters with neither key, and with both [dsTenant] and
    [dsHostname]. *)
Definition event_with_tenant_and_hostname : dict :=
  event_of (<["dsTenant" := PStr "tenant"]> (<["dsHostname" := PStr "dsm.example.com"]> (
            <["dsControl" := PStr "firewall"]> ∅)))
           (item "AWS::EC2::Instance").

(** An inventory of one host, the instance [i-0abc], whose every control
    reports [status]. *)
Definition one_host (status : string) : list (pyval * Computer) :=
  [(PInt 1, host (Some "i-0abc") status)].

End Sample.

(** Inputs for the further properties. *)
Module Scenario.

(** The sample event with another value of [eventLeftScope] and a key the
    handler does not know. *)
Definition noisy_event : dict :=
  <["eventLeftScope" := PBool true]> (<["accountId" := PStr "123456789012"]>
    (Sample.event "firewall")).

(** An environment that decodes one text, [text], to [value], and whose
    collaborators all answer; the inventory is [computers]. *)
Definition env_decoding (text : string) (value : pyval)
    (computers : list (pyval * Computer)) : Env :=
  {| str_lower := Str.lower;
     str_strip := Str.strip;
     json_loads := λ s, if String.eqb s text then ok value else raise ValueError;
     Credentials_init := λ _, ok tt;
     get_username := λ _, ok (PStr "admin");
     get_password := λ _, ok (PStr "secret");
     Manager_init := λ _, ok tt;
     sign_in := λ _, ok tt;
     computers_get := λ _, ok computers;
     sign_out := λ _, ok tt;
     put_evaluations := λ _ _, ok (PDict ∅);
     datetime_now := 0 |}.

(** The sample event with its rule parameters given as text. *)
Definition event_with_text_parameters (text : string) : dict :=
  <["ruleParameters" := PStr text]> (Sample.event "firewall").

(** The sample event with its rule parameters replaced by [v]. *)
Definition event_with_parameters (v : pyval) : dict :=
  <["ruleParameters" := v]> (Sample.event "firewall").

(** An environment given by the answer of each collaborator. *)
Definition world (credentials_answer : result unit) (username_answer password_answer : result pyval)
    (manager_answer sign_in_answer : result unit)
    (computers_answer : result (list (pyval * Computer)))
    (sign_out_answer : result unit) (put_answer : result pyval) : Env :=
  {| str_lower := Str.lower;
     str_strip := Str.strip;
     json_loads := λ _, raise ValueError;
     Credentials_init := λ _, credentials_answer;
     get_username := λ _, username_answer;
     get_password := λ _, password_answer;
     Manager_init := λ _, manager_answer;
     sign_in := λ _, sign_in_answer;
     computers_get := λ _, computers_answer;
     sign_out := λ _, sign_out_answer;
     put_evaluations := λ _ _, put_answer;
     datetime_now := 0 |}.

(** The sample event with one more rule parameter. *)
Definition event_with_parameter (key : string) (v : pyval) : dict :=
  Sample.event_of (<[key := v]> (Sample.rule_parameters "firewall"))
    (Sample.item "AWS::EC2::Instance").

(** The sample event about a resource whose id is the number 5. *)
Definition event_with_numeric_id : dict :=
  Sample.event_of (Sample.rule_parameters "firewall")
    (<["resourceId" := PInt 5]> (Sample.item "AWS::EC2::Instance")).

(** The run of the sample event for the firewall over one protected host:
    the evaluation submitted and the mapping returned. *)
Definition firewall_on_evaluation : Evaluation :=
  {| ComplianceResourceType := PStr "AWS::EC2::Instance";
     ComplianceResourceId := PStr "i-0abc";
     ComplianceType := "COMPLIANT";
     OrderingTimestamp := 0;
     Annotation := Some "Firewall status: On" |}.

Definition firewall_on_result : dict :=
  <["annotation" := PStr "Firewall status: On"]> (
  <["result" := PStr "success"]> (
  <["response" := PDict ∅]> ∅)).

Definition firewall_on_calls : list call :=
  (Sample.credential_calls ++
   [CallManager Sample.manager; CallSignIn Sample.manager;
    CallComputersGet Sample.manager; CallSignOut Sample.manager;
    CallBoto3Client "config";
    CallPutEvaluations [firewall_on_evaluation] (PStr "token")])%list.

End Scenario.

(** ** The embedding on small inputs *)

Example lower_mixed_case : Str.lower "AWS::EC2::Instance" = "aws::ec2::instance".
Proof. reflexivity. Qed.

Example strip_both_ends : Str.strip "  i-0ABC	 " = "i-0ABC".
Proof. reflexivity. Qed.

Example strip_keeps_inner_space : Str.strip " a b " = "a b".
Proof. reflexivity. Qed.

Example contains_inside : Str.contains "on" "not configured" = true.
Proof. reflexivity. Qed.

Example contains_empty_pattern : Str.contains "" "" = true.
Proof. reflexivity. Qed.

Example contains_not : Str.contains "on, prevent" "on, detect" = false.
Proof. reflexivity. Qed.

Example strtobool_yes : strtobool (PStr "Yes") = ok (PInt 1).
Proof. reflexivity. Qed.

Example strtobool_other : strtobool (PStr "maybe") = raise ValueError.
Proof. reflexivity. Qed.

Example truthy_empty_text : truthy (PStr "") = false.
Proof. reflexivity. Qed.

Example truthy_empty_dict : truthy (PDict ∅) = false.
Proof. reflexivity. Qed.

Example host_matches_case_and_space :
  host_matches (Sample.env []) "i-0abc" (Sample.host (Some " I-0ABC ") "On") = true.
Proof. reflexivity. Qed.

Example host_without_instance_id :
  host_matches (Sample.env []) "" (Sample.host None "On") = false.
Proof. reflexivity. Qed.

(** A whole run: one protected host, firewall. *)
Example run_firewall_on :
  aws_config_rule_handler (Sample.env (Sample.one_host "On")) (Sample.event "Firewall")
  = ((Sample.credential_calls ++
      [CallManager Sample.manager; CallSignIn Sample.manager;
       CallComputersGet Sample.manager; CallSignOut Sample.manager;
       CallBoto3Client "config";
       CallPutEvaluations
         [{| ComplianceResourceType := PStr "AWS::EC2::Instance";
             ComplianceResourceId := PStr "i-0abc";
             ComplianceType := "COMPLIANT";
             OrderingTimestamp := 0;
             Annotation := Some "Firewall status: On" |}]
         (PStr "token")])%list,
     ok (<["annotation" := PStr "Firewall status: On"]> (
         <["result" := PStr "success"]> (
         <["response" := PDict ∅]> ∅)))).
Proof. reflexivity. Qed.

(** The two credential keys missing, and no tenant: the one case in which
    the credentials are reported missing. *)
Example run_without_credentials :
  aws_config_rule_handler (Sample.env [])
    (Sample.event_of (<["dsControl" := PStr "firewall"]> ∅) (Sample.item "AWS::EC2::Instance"))
  = ([], ok {[ "requirements_not_met" := PStr credentials_message ]}).
Proof. reflexivity. Qed.

(** ** Equations of the monad *)

Section Monad.
Context {A B : Type}.

Lemma bind_normal (tr : list call) (a : A) (f : A → M B) :
  ((tr, Normal a) ≫= f) = (let '(tr', o) := f a in ((tr ++ tr')%list, o)).
Proof. reflexivity. Qed.

Lemma bind_pure_ok (a : A) (f : A → M B) : (pure (ok a) ≫= f) = f a.
Proof. unfold pure, ok. rewrite bind_normal. by destruct (f a). Qed.

Lemma bind_return (tr : list call) (r : dict) (f : A → M B) :
  ((tr, Return r) ≫= f) = (tr, Return r).
Proof. reflexivity. Qed.

Lemma bind_raise (tr : list call) (e : exn) (f : A → M B) :
  ((tr, Raise e) ≫= f) = (tr, Raise e).
Proof. reflexivity. Qed.

Lemma bind_invoke_ok (c : call) (a : A) (f : A → M B) :
  (invoke c (ok a) ≫= f) = (let '(tr', o) := f a in (c :: tr', o)).
Proof. reflexivity. Qed.

(** A sequence falls through only when both of its parts do. *)
Lemma bind_normal_inv (m : M A) (f : A → M B) (tr : list call) (b : B) :
  (m ≫= f) = (tr, Normal b) →
  ∃ tr1 a tr2, m = (tr1, Normal a) ∧ f a = (tr2, Normal b) ∧ tr = (tr1 ++ tr2)%list.
Proof.
  destruct m as [tr1 [a | r | e]]; [| discriminate..].
  rewrite bind_normal. destruct (f a) as [tr2 o] eqn:Ef.
  intros [= <- ->]. by exists tr1, a, tr2.
Qed.

Lemma pure_normal_inv (r : result A) (tr : list call) (a : A) :
  pure r = (tr, Normal a) → r = ok a ∧ tr = [].
Proof. destruct r; [discriminate |]. by intros [= <- <-]. Qed.

Lemma invoke_normal_inv (c : call) (r : result A) (tr : list call) (a : A) :
  invoke c r = (tr, Normal a) → r = ok a ∧ tr = [c].
Proof. destruct r; [discriminate |]. by intros [= <- <-]. Qed.

End Monad.

(** ** Validation *)

Lemma has_true (d : dict) (key : string) : has d key = true ↔ is_Some (d !! key).
Proof. unfold has. by rewrite bool_decide_eq_true. Qed.

Lemma has_false (d : dict) (key : string) : has d key = false ↔ d !! key = None.
Proof. unfold has. by rewrite bool_decide_eq_false, eq_None_not_Some. Qed.

(** The first check passes exactly when the four keys are there. *)
Lemma required_keys_normal (event : dict) (tr : list call) :
  required_keys event = (tr, Normal tt) ↔
  tr = [] ∧ is_Some (event !! "invokingEvent") ∧ is_Some (event !! "ruleParameters") ∧
  is_Some (event !! "resultToken") ∧ is_Some (event !! "eventLeftScope").
Proof.
  unfold required_keys. rewrite <- !has_true.
  destruct (has event "invokingEvent"), (has event "ruleParameters"),
    (has event "resultToken"), (has event "eventLeftScope"); simpl;
    (split; [ intros [= <-] || discriminate | intros (-> & ? & ? & ? & ?) ]); try done.
Qed.

Lemma required_keys_missing (event : dict) :
  event !! "invokingEvent" = None ∨ event !! "ruleParameters" = None ∨
  event !! "resultToken" = None ∨ event !! "eventLeftScope" = None →
  required_keys event = return_ {[ "result" := PStr "error" ]}.
Proof.
  rewrite <- !has_false. unfold required_keys.
  intros [-> | [-> | [-> | ->]]]; simpl; by rewrite ?orb_true_r.
Qed.

(** Deserializing a block keeps every other key. *)
Lemma deserialize_other (env : Env) (key key' : string) (event event' : dict) :
  key ≠ key' → deserialize env key event = ok event' → event' !! key' = event !! key'.
Proof.
  intros Hne. unfold deserialize.
  destruct (event !! key) as [v |]; [| by intros [= <-]].
  destruct (is_dict v); simpl; [by intros [= <-] |].
  destruct (py_json_loads env v) as [e | v']; [discriminate |].
  cbn. intros [= <-]. by rewrite lookup_insert_ne.
Qed.

Lemma deserialize_blocks_other (env : Env) (key : string) (event event' : dict) :
  key ≠ "ruleParameters" → key ≠ "invokingEvent" →
  deserialize_blocks env event = ok event' → event' !! key = event !! key.
Proof.
  intros H1 H2. unfold deserialize_blocks.
  destruct (deserialize env "ruleParameters" event) as [e | event1] eqn:E1; [discriminate |].
  cbn. intros E2.
  rewrite (deserialize_other _ _ _ _ _ (not_eq_sym H2) E2).
  by rewrite (deserialize_other _ _ _ _ _ (not_eq_sym H1) E1).
Qed.

Lemma validate_normal (env : Env) (event ev : dict) (tr : list call)
    (credentials : option (pyval * pyval)) :
  validate env event = (tr, Normal (ev, credentials)) →
  required_keys event = ([], Normal tt) ∧
  deserialize_blocks env event = ok ev ∧
  rule_parameters env ev = (tr, Normal credentials).
Proof.
  unfold validate. intros H.
  apply bind_normal_inv in H as (tr1 & [] & tr2 & Hk & H & ->).
  apply bind_normal_inv in H as (tr3 & ev' & tr4 & Hd & H & ->).
  apply bind_normal_inv in H as (tr5 & c & tr6 & Hr & H & ->).
  injection H as <- <- <-.
  apply pure_normal_inv in Hd as [Hd ->].
  pose proof (proj1 (required_keys_normal _ _) Hk) as [-> _].
  by rewrite app_nil_r.
Qed.

(** A validated event still has its four keys. *)
Lemma validate_keys (env : Env) (event ev : dict) (tr : list call)
    (credentials : option (pyval * pyval)) :
  validate env event = (tr, Normal (ev, credentials)) →
  is_Some (ev !! "invokingEvent") ∧ is_Some (ev !! "ruleParameters") ∧
  ev !! "resultToken" = event !! "resultToken" ∧ is_Some (event !! "resultToken").
Proof.
  intros H. apply validate_normal in H as (Hk & Hd & Hr).
  apply required_keys_normal in Hk as (_ & Hi & Hp & Ht & _).
  assert (Htok : ev !! "resultToken" = event !! "resultToken")
    by (by apply (deserialize_blocks_other env)).
  split_and!; try done.
  - unfold deserialize_blocks in Hd.
    destruct (deserialize env "ruleParameters" event) as [e | ev1] eqn:E1; [discriminate |].
    cbn in Hd.
    assert (is_Some (ev1 !! "invokingEvent"))
      by (by rewrite (deserialize_other env "ruleParameters" "invokingEvent" _ _ ltac:(done) E1)).
    unfold deserialize in Hd. destruct (ev1 !! "invokingEvent") as [v |] eqn:Ev.
    + destruct (is_dict v); simpl in Hd; [injection Hd as <-; by rewrite Ev |].
      destruct (py_json_loads env v); [discriminate |].
      cbn in Hd. injection Hd as <-. rewrite lookup_insert_eq. by eexists.
    + by destruct H.
  - destruct (ev !! "ruleParameters") eqn:E; [by eexists |].
    unfold deserialize_blocks in Hd.
    destruct (deserialize env "ruleParameters" event) as [e | ev1] eqn:E1; [discriminate |].
    cbn in Hd.
    rewrite (deserialize_other env "invokingEvent" "ruleParameters" _ _ ltac:(done) Hd) in E.
    unfold deserialize in E1. destruct Hp as [v Hv]. rewrite Hv in E1.
    destruct (is_dict v); simpl in E1; [injection E1 as <-; congruence |].
    destruct (py_json_loads env v); [discriminate |].
    cbn in E1. injection E1 as <-. by rewrite lookup_insert_eq in E.
Qed.

(** What passing the parameter checks means. *)
Lemma rule_parameters_normal (env : Env) (ev : dict) (rp : pyval) (tr : list call)
    (credentials : option (pyval * pyval)) :
  ev !! "ruleParameters" = Some rp →
  rule_parameters env ev = (tr, Normal credentials) →
  ∃ c, credentials = Some c ∧
       resolve_credentials env rp = (tr, Normal c) ∧
       control_invalid rp = ok false.
Proof.
  intros Hrp. unfold rule_parameters. rewrite Hrp. intros H.
  apply bind_normal_inv in H as (tr1 & c & tr2 & Hc & H & ->).
  apply bind_normal_inv in H as (tr3 & [] & tr4 & Hq & H & ->).
  injection H as <- <-.
  unfold require_control in Hq.
  apply bind_normal_inv in Hq as (tr5 & invalid & tr6 & Hi & Hq & ->).
  apply pure_normal_inv in Hi as [Hi ->].
  destruct invalid; [discriminate |]. injection Hq as <-.
  exists c. by rewrite !app_nil_r.
Qed.

(** ** Calls made by the phases *)

Lemma quiet_pure {A} (r : result A) : quiet (pure r).
Proof. destruct r; constructor. Qed.

Lemma quiet_return {A} (r : dict) : quiet (@return_ A r).
Proof. constructor. Qed.

Lemma quiet_mret {A} (a : A) : quiet (mret a : M A).
Proof. constructor. Qed.

Lemma quiet_invoke {A} (c : call) (r : result A) :
  is_put_evaluations c = false → quiet (invoke c r).
Proof. intros H. destruct r; by repeat constructor. Qed.

Lemma quiet_bind {A B} (m : M A) (f : A → M B) :
  quiet m → (∀ a, quiet (f a)) → quiet (m ≫= f).
Proof.
  destruct m as [tr [a | r | e]]; try done.
  intros Hm Hf. rewrite bind_normal. specialize (Hf a).
  destruct (f a) as [tr' o]. by apply Forall_app.
Qed.

Create HintDb quiet.
#[local] Hint Resolve quiet_pure quiet_return quiet_mret quiet_invoke quiet_bind : quiet.

Lemma validate_quiet (env : Env) (event : dict) : quiet (validate env event).
Proof.
  unfold validate. apply quiet_bind.
  { unfold required_keys. case_match; auto with quiet. }
  intros _. apply quiet_bind; [auto with quiet |]. intros ev.
  apply quiet_bind; [| auto with quiet].
  unfold rule_parameters. case_match; [| auto with quiet].
  apply quiet_bind.
  - unfold resolve_credentials. apply quiet_bind; [auto with quiet |].
    intros []; [auto with quiet |].
    repeat (apply quiet_bind; [auto with quiet | intros ?]). auto with quiet.
  - intros ?. apply quiet_bind; [| auto with quiet].
    unfold require_control. apply quiet_bind; [auto with quiet |].
    intros []; auto with quiet.
Qed.

(** ** The handler after validation *)

Lemma handler_validated (env : Env) (event ev : dict) (tr : list call)
    (credentials : option (pyval * pyval)) :
  validate env event = (tr, Normal (ev, credentials)) →
  aws_config_rule_handler env event =
  finish (let '(tr', o) := evaluate_and_report env ev credentials in ((tr ++ tr')%list, o)).
Proof. intros H. unfold aws_config_rule_handler. by rewrite H. Qed.

Lemma handler_rejected (env : Env) (event : dict) (tr : list call) (r : dict) :
  validate env event = (tr, Return r) →
  aws_config_rule_handler env event = (tr, ok r).
Proof. intros H. unfold aws_config_rule_handler. by rewrite H. Qed.

(** Without an instance id the evaluation is skipped and nothing is
    submitted. *)
Lemma evaluate_and_report_no_instance (env : Env) (ev : dict)
    (credentials : option (pyval * pyval)) (instance_id : pyval) :
  scope_filter ev = ok instance_id → truthy instance_id = false →
  evaluate_and_report env ev credentials = ([CallBoto3Client "config"], Normal ∅).
Proof.
  intros Hs Ht. unfold evaluate_and_report. rewrite Hs, bind_pure_ok, Ht.
  unfold report. by rewrite Ht.
Qed.

(** ** The scope filter *)

Lemma py_contains_dict (d : dict) (key : string) :
  py_contains (PDict d) key = ok (has d key).
Proof. reflexivity. Qed.

Lemma py_getitem_dict (d : dict) (key : string) (v : pyval) :
  d !! key = Some v → py_getitem (PDict d) key = ok v.
Proof. intros H. simpl. by rewrite H. Qed.

Lemma has_Some (d : dict) (key : string) (v : pyval) : d !! key = Some v → has d key = true.
Proof. intros H. apply has_true. by eexists. Qed.

Lemma has_None (d : dict) (key : string) : d !! key = None → has d key = false.
Proof. apply has_false. Qed.

(** An event about another kind of resource, or about no resource at all,
    yields no instance id. *)
Lemma scope_filter_other (ev invoking_event item : dict) :
  ev !! "invokingEvent" = Some (PDict invoking_event) →
  invoking_event !! "configurationItem" = Some (PDict item) →
  (item !! "resourceType" = None ∨
   ∃ t, item !! "resourceType" = Some (PStr t) ∧
        (Str.lower t ≠ Str.lower ec2_instance ∨ item !! "resourceId" = None)) →
  scope_filter ev = ok PNone.
Proof.
  intros Hi Hc Hr. unfold scope_filter. rewrite Hi, py_contains_dict, (has_Some _ _ _ Hc).
  cbn. rewrite Hc. cbn.
  destruct Hr as [Hr | (t & Hr & Ht)].
  - by rewrite (has_None _ _ Hr).
  - rewrite (has_Some _ _ _ Hr), Hr. cbn.
    destruct (String.eqb_spec (Str.lower t) (Str.lower ec2_instance)) as [Heq | Hne]; [| done].
    destruct Ht as [Ht | Ht]; [done |].
    unfold get_or. cbn. by rewrite (has_None _ _ Ht).
Qed.

(** * Properties stated by the specification *)

(** C4.  An event that lacks one of the four keys [invokingEvent],
    [ruleParameters], [resultToken], [eventLeftScope] makes the handler
    return exactly [{'result': 'error'}], and the run calls no collaborator
    at all: its list of calls is empty. *)
Theorem missing_top_level_key_is_error (env : Env) (event : dict) :
  event !! "invokingEvent" = None ∨ event !! "ruleParameters" = None ∨
  event !! "resultToken" = None ∨ event !! "eventLeftScope" = None →
  aws_config_rule_handler env event = ([], ok {[ "result" := PStr "error" ]}).
Proof.
  intros H. apply handler_rejected. unfold validate.
  by rewrite (required_keys_missing _ H).
Qed.

Lemma missing_top_level_key_is_error_witness :
  aws_config_rule_handler (Sample.env []) (delete "resultToken" (Sample.event "firewall"))
  = ([], ok {[ "result" := PStr "error" ]}).
Proof.
  apply (missing_top_level_key_is_error (Sample.env [])
           (delete "resultToken" (Sample.event "firewall"))).
  right. right. left. reflexivity.
Defined.

(** C10.  When an event passes all validation and no instance id comes out
    of the scope filter (the value is [None] or otherwise false), the
    handler returns exactly the empty mapping [{}]: the detailed message is
    still the empty string, so there is no ['annotation'] key, and nothing
    is added afterwards.  The only call after validation builds the AWS
    Config client. *)
Theorem no_instance_returns_empty (env : Env) (event ev : dict) (tr : list call)
    (credentials : option (pyval * pyval)) (instance_id : pyval) :
  validate env event = (tr, Normal (ev, credentials)) →
  scope_filter ev = ok instance_id →
  truthy instance_id = false →
  ∃ r : dict,
    aws_config_rule_handler env event = ((tr ++ [CallBoto3Client "config"])%list, ok r) ∧
    r = ∅ ∧
    r !! "annotation" = None.
Proof.
  intros Hv Hs Ht. exists ∅. split_and!; [| done..].
  rewrite (handler_validated _ _ _ _ _ Hv).
  by rewrite (evaluate_and_report_no_instance _ _ _ _ Hs Ht).
Qed.

Lemma no_instance_returns_empty_witness :
  ∃ r : dict,
    aws_config_rule_handler (Sample.env [])
      (Sample.event_of (Sample.rule_parameters "firewall")
         (delete "resourceId" (Sample.item "AWS::EC2::Instance")))
    = ((Sample.credential_calls ++ [CallBoto3Client "config"])%list, ok r) ∧
    r = ∅ ∧
    r !! "annotation" = None.
Proof.
  apply (no_instance_returns_empty (Sample.env []) _
           (Sample.event_of (Sample.rule_parameters "firewall")
              (delete "resourceId" (Sample.item "AWS::EC2::Instance")))
           Sample.credential_calls (Some (PStr "admin", PStr "secret")) PNone);
    reflexivity.
Defined.

(** C6.  When an event passes all validation and the [resourceType] of its
    configuration item is absent or does not equal ["AWS::EC2::Instance"]
    with case ignored, or the configuration item has no [resourceId], the
    handler returns a mapping without a ['result'] key and the run contains
    no compliance submission. *)
Theorem out_of_scope_no_submission (env : Env) (event ev : dict) (tr : list call)
    (credentials : option (pyval * pyval)) (invoking_event item : dict) :
  validate env event = (tr, Normal (ev, credentials)) →
  ev !! "invokingEvent" = Some (PDict invoking_event) →
  invoking_event !! "configurationItem" = Some (PDict item) →
  (item !! "resourceType" = None ∨
   ∃ t, item !! "resourceType" = Some (PStr t) ∧
        (Str.lower t ≠ Str.lower ec2_instance ∨ item !! "resourceId" = None)) →
  ∃ (calls : list call) (r : dict),
    aws_config_rule_handler env event = (calls, ok r) ∧
    no_submission calls ∧
    r !! "result" = None.
Proof.
  intros Hv Hi Hc Hr.
  pose proof (scope_filter_other _ _ _ Hi Hc Hr) as Hs.
  exists (tr ++ [CallBoto3Client "config"])%list, ∅.
  rewrite (handler_validated _ _ _ _ _ Hv).
  rewrite (evaluate_and_report_no_instance _ _ _ PNone Hs eq_refl).
  split_and!; [done | | done].
  apply Forall_app. split; [| by repeat constructor].
  pose proof (validate_quiet env event) as Hq. unfold quiet in Hq. by rewrite Hv in Hq.
Qed.

Lemma out_of_scope_no_submission_witness :
  ∃ (calls : list call) (r : dict),
    aws_config_rule_handler (Sample.env [])
      (Sample.event_of (Sample.rule_parameters "firewall") (Sample.item "AWS::S3::Bucket"))
    = (calls, ok r) ∧
    no_submission calls ∧
    r !! "result" = None.
Proof.
  apply (out_of_scope_no_submission (Sample.env []) _
           (Sample.event_of (Sample.rule_parameters "firewall") (Sample.item "AWS::S3::Bucket"))
           Sample.credential_calls (Some (PStr "admin", PStr "secret"))
           (<["configurationItem" := PDict (Sample.item "AWS::S3::Bucket")]> ∅)
           (Sample.item "AWS::S3::Bucket"));
    [reflexivity | reflexivity | reflexivity |].
  right. exists "AWS::S3::Bucket". split; [reflexivity |]. left. discriminate.
Defined.

(** ** The parameter checks *)

Lemma py_getitem_ok (container : pyval) (key : string) (v : pyval) :
  py_getitem container key = ok v →
  ∃ d, container = PDict d ∧ d !! key = Some v.
Proof.
  destruct container as [| | | | | | d]; try discriminate.
  simpl. destruct (d !! key) as [w |] eqn:E; [| discriminate].
  intros [= <-]. by exists d.
Qed.

(** The control is rejected when the key is absent, or when its value is
    text that is none of the six names once lowercased. *)
Lemma control_invalid_true (rp : pyval) :
  py_contains rp "dsControl" = ok false ∨
  (∃ s, py_getitem rp "dsControl" = ok (PStr s) ∧ ¬ In (Str.lower s) valid_controls) →
  control_invalid rp = ok true.
Proof.
  unfold control_invalid, py_or, py_not.
  intros [H | (s & H & Hs)].
  - by rewrite H.
  - destruct (py_getitem_ok _ _ _ H) as (d & -> & Hd).
    rewrite py_contains_dict, (has_Some _ _ _ Hd), H. cbn -[existsb valid_controls].
    destruct (existsb (String.eqb (Str.lower s)) valid_controls) eqn:E; [| done].
    apply existsb_exists in E as (c & Hc & E). apply String.eqb_eq in E. by subst.
Qed.

(** C5.  An event that has the four top-level keys and whose credentials
    were resolved (it passed the checks of lines 33-54) is answered with a
    mapping holding ['requirements_not_met'] when its rule parameters have no
    [dsControl] key, or have one whose value, lowercased, is none of
    [anti_malware], [web_reputation], [firewall], [intrusion_prevention],
    [integrity_monitoring], [log_inspection]. *)
Theorem invalid_control_is_rejected (env : Env) (event ev : dict) (rp : pyval)
    (tr : list call) (credentials : pyval * pyval) :
  required_keys event = ([], Normal tt) →
  deserialize_blocks env event = ok ev →
  ev !! "ruleParameters" = Some rp →
  resolve_credentials env rp = (tr, Normal credentials) →
  py_contains rp "dsControl" = ok false ∨
  (∃ s, py_getitem rp "dsControl" = ok (PStr s) ∧ ¬ In (Str.lower s) valid_controls) →
  ∃ r, aws_config_rule_handler env event = (tr, ok r) ∧
       r !! "requirements_not_met" = Some (PStr control_message).
Proof.
  intros Hk Hd Hrp Hc Hbad.
  exists {[ "requirements_not_met" := PStr control_message ]}. split; [| done].
  apply handler_rejected. unfold validate.
  rewrite Hk, bind_normal, Hd. cbn -[rule_parameters].
  unfold rule_parameters. rewrite Hrp, Hc, bind_normal.
  unfold require_control. rewrite (control_invalid_true _ Hbad). cbn.
  by rewrite app_nil_r.
Qed.

Lemma invalid_control_is_rejected_witness :
  ∃ r, aws_config_rule_handler (Sample.env []) (Sample.event "antivirus")
       = (Sample.credential_calls, ok r) ∧
       r !! "requirements_not_met" = Some (PStr control_message).
Proof.
  apply (invalid_control_is_rejected (Sample.env []) (Sample.event "antivirus")
           (Sample.event "antivirus") (PDict (Sample.rule_parameters "antivirus"))
           Sample.credential_calls (PStr "admin", PStr "secret"));
    [reflexivity | reflexivity | reflexivity | reflexivity |].
  right. exists "antivirus". split; [reflexivity |].
  vm_compute. intros H. repeat (destruct H as [H | H]; [discriminate H |]). exact H.
Defined.

(** ** The reporting step *)

(** An instance id comes only from the [resourceId] of a configuration item
    whose [resourceType] is the EC2 instance type. *)
Lemma scope_filter_instance (ev : dict) (instance_id : pyval) :
  scope_filter ev = ok instance_id →
  truthy instance_id = true →
  ∃ invoking_event item resource_type,
    py_getitem (PDict ev) "invokingEvent" = ok invoking_event ∧
    py_getitem invoking_event "configurationItem" = ok item ∧
    py_getitem item "resourceType" = ok resource_type ∧
    py_getitem item "resourceId" = ok instance_id.
Proof.
  unfold scope_filter. intros H Ht.
  assert (Hn : ∀ v, @ok pyval PNone = ok v → v = instance_id → False)
    by (intros v [= <-] <-; discriminate).
  destruct (ev !! "invokingEvent") as [invoking_event |] eqn:Ei; [| by edestruct Hn].
  destruct (py_contains invoking_event "configurationItem") as [e | []];
    [discriminate | | by edestruct Hn].
  cbn in H.
  destruct (py_getitem invoking_event "configurationItem") as [e | item] eqn:Ec;
    [discriminate |].
  cbn in H. unfold py_and in H.
  destruct (py_contains item "resourceType") as [e | []];
    [discriminate | | by edestruct Hn].
  cbn in H.
  destruct (py_getitem item "resourceType") as [e | resource_type] eqn:Er; [discriminate |].
  cbn in H.
  destruct (py_lower resource_type) as [e | t]; [discriminate |].
  cbn in H.
  destruct (t =? Str.lower ec2_instance)%string; [| by edestruct Hn].
  unfold get_or in H.
  destruct (py_contains item "resourceId") as [e | []]; [discriminate | | by edestruct Hn].
  cbn in H.
  exists invoking_event, item, resource_type. simpl. by rewrite Ei.
Qed.

(** With an instance id at hand the reporting step submits one evaluation
    and turns the answer of [put_evaluations] into the result. *)
Lemma report_submits (env : Env) (ev : dict) (instance_id invoking_event item resource_type token : pyval)
    (is_protected : bool) (detailed_msg : string) :
  truthy instance_id = true →
  py_getitem (PDict ev) "invokingEvent" = ok invoking_event →
  py_getitem invoking_event "configurationItem" = ok item →
  py_getitem item "resourceType" = ok resource_type →
  py_getitem item "resourceId" = ok instance_id →
  ev !! "resultToken" = Some token →
  let evaluation :=
    make_evaluation env resource_type instance_id (compliance_type is_protected) detailed_msg in
  report env ev instance_id is_protected detailed_msg =
  ([CallBoto3Client "config"; CallPutEvaluations [evaluation] token],
   Normal match put_evaluations env [evaluation] token with
          | inl err => <["result" := PStr "failure"]> (initial_result detailed_msg)
          | inr response =>
              <["response" := response]>
                (<["result" := PStr "success"]> (initial_result detailed_msg))
          end).
Proof.
  intros Ht Hi Hc Hr Hid Htok evaluation. unfold report.
  rewrite bind_invoke_ok, Ht, Hi, bind_pure_ok, Hc, bind_pure_ok, Hr, bind_pure_ok,
    Hid, bind_pure_ok.
  rewrite (py_getitem_dict _ _ _ Htok), bind_pure_ok.
  fold evaluation. by destruct (put_evaluations env [evaluation] token).
Qed.

Lemma initial_result_annotation (detailed_msg : string) :
  initial_result detailed_msg !! "annotation" =
  if Str.nonempty detailed_msg then Some (PStr detailed_msg) else None.
Proof. unfold initial_result. by destruct (Str.nonempty detailed_msg). Qed.

(** The handler, from a validated event with an instance id whose
    evaluation ran to its end. *)
Lemma handler_reports (env : Env) (event ev : dict) (tr tr1 : list call)
    (credentials : option (pyval * pyval)) (instance_id : pyval)
    (is_protected : bool) (detailed_msg : string) :
  validate env event = (tr, Normal (ev, credentials)) →
  scope_filter ev = ok instance_id →
  truthy instance_id = true →
  evaluate env ev credentials instance_id = (tr1, Normal (is_protected, detailed_msg)) →
  ∃ resource_type token,
    event !! "resultToken" = Some token ∧
    (∃ invoking_event item,
       ev !! "invokingEvent" = Some invoking_event ∧
       py_getitem invoking_event "configurationItem" = ok item ∧
       py_getitem item "resourceType" = ok resource_type) ∧
    let evaluation :=
      make_evaluation env resource_type instance_id (compliance_type is_protected) detailed_msg in
    aws_config_rule_handler env event =
    ((tr ++ tr1 ++ [CallBoto3Client "config"; CallPutEvaluations [evaluation] token])%list,
     ok match put_evaluations env [evaluation] token with
        | inl err => <["result" := PStr "failure"]> (initial_result detailed_msg)
        | inr response =>
            <["response" := response]>
              (<["result" := PStr "success"]> (initial_result detailed_msg))
        end).
Proof.
  intros Hv Hs Ht He.
  destruct (validate_keys _ _ _ _ _ Hv) as (_ & _ & Htok & [token Htok']).
  destruct (scope_filter_instance _ _ Hs Ht) as (ie & item & rt & Hi & Hc & Hr & Hid).
  exists rt, token. split; [done |]. split.
  { exists ie, item. split_and!; try done.
    simpl in Hi. by destruct (ev !! "invokingEvent"); simplify_eq. }
  intros evaluation.
  rewrite (handler_validated _ _ _ _ _ Hv). unfold evaluate_and_report.
  rewrite Hs, bind_pure_ok, Ht, He, bind_normal.
  rewrite (report_submits env ev instance_id ie item rt token); [done | done.. | congruence].
Qed.

(** C7.  From a validated event with an instance id whose evaluation ran to
    its end (the reporting step is reached), the handler always returns a
    mapping: when [put_evaluations] raises, whatever the exception, the
    mapping has [result = 'failure'] and no ['response']; when it answers,
    the mapping has [result = 'success'] and the answer under ['response'].
    In both cases ['annotation'] is present exactly when the detailed
    message is not empty, and holds that message. *)
Theorem submission_outcome_is_structured (env : Env) (event ev : dict) (tr tr1 : list call)
    (credentials : option (pyval * pyval)) (instance_id : pyval)
    (is_protected : bool) (detailed_msg : string) :
  validate env event = (tr, Normal (ev, credentials)) →
  scope_filter ev = ok instance_id →
  truthy instance_id = true →
  evaluate env ev credentials instance_id = (tr1, Normal (is_protected, detailed_msg)) →
  ∃ (evaluation : Evaluation) (token : pyval) (calls : list call) (r : dict),
    aws_config_rule_handler env event = (calls, ok r) ∧
    last calls = Some (CallPutEvaluations [evaluation] token) ∧
    r !! "annotation" = (if Str.nonempty detailed_msg then Some (PStr detailed_msg) else None) ∧
    (∀ err, put_evaluations env [evaluation] token = raise err →
            r !! "result" = Some (PStr "failure") ∧ r !! "response" = None) ∧
    (∀ response, put_evaluations env [evaluation] token = ok response →
                 r !! "result" = Some (PStr "success") ∧ r !! "response" = Some response).
Proof.
  intros Hv Hs Ht He.
  destruct (handler_reports _ _ _ _ _ _ _ _ _ Hv Hs Ht He) as (rt & token & _ & _ & H).
  cbv zeta in H.
  set (evaluation := make_evaluation env rt instance_id (compliance_type is_protected) detailed_msg) in *.
  eexists evaluation, token, _, _. split; [exact H |].
  split. { by rewrite !last_app. }
  pose proof (initial_result_annotation detailed_msg) as Ha.
  assert (Hn : initial_result detailed_msg !! "response" = None).
  { unfold initial_result. by destruct (Str.nonempty detailed_msg). }
  unfold raise, ok.
  destruct (put_evaluations env [evaluation] token) as [e | resp];
    (split_and!; [| intros ? [= <-] | intros ? [= <-]]);
    by simplify_map_eq.
Qed.

(** ** Substrings *)

Lemma prefix_app (sub s : string) :
  String.prefix sub s = true ↔ ∃ after, s = sub ++ after.
Proof.
  revert s. induction sub as [| a sub IH]; intros s.
  - split; [intros _; by exists s | by destruct s].
  - destruct s as [| b s]; simpl.
    + split; [discriminate | intros [after [=]]].
    + destruct (ascii_dec a b) as [-> | Hne].
      * rewrite IH. split; intros [after H]; exists after; [by rewrite H | by injection H].
      * split; [discriminate | intros [after [= H _]]; by destruct Hne].
Qed.

Lemma contains_unfold (sub s : string) :
  Str.contains sub s =
  String.prefix sub s || match s with EmptyString => false | String _ r => Str.contains sub r end.
Proof. by destruct s. Qed.

(** [Str.contains] decides the occurrence of a substring. *)
Lemma contains_spec (sub s : string) :
  Str.contains sub s = true ↔ ∃ before after, s = before ++ sub ++ after.
Proof.
  split.
  - induction s as [| c s IH]; rewrite contains_unfold, orb_true_iff; intros [H | H].
    + apply prefix_app in H as [after H]. by exists "", after.
    + discriminate.
    + apply prefix_app in H as [after H]. by exists "", after.
    + destruct (IH H) as (before & after & ->). by exists (String c before), after.
  - intros (before & after & ->).
    induction before as [| c before IH]; rewrite contains_unfold.
    + assert (H : String.prefix sub (sub ++ after) = true) by (apply prefix_app; by exists after).
      change ("" ++ sub ++ after) with (sub ++ after). by rewrite H.
    + change (String c before ++ sub ++ after) with (String c (before ++ sub ++ after)).
      cbv iota. by rewrite IH, orb_true_r.
Qed.

Lemma contains_lower_spec (pattern status : string) :
  Str.contains (Str.lower pattern) (Str.lower status) = true ↔
  contains_ignoring_case pattern status.
Proof. apply contains_spec. Qed.

(** The condition of lines 104-115 is the rule of the specification. *)
Lemma status_protects_spec (control_key status : string) :
  In control_key valid_controls →
  status_protects control_key status = true ↔ protected_by_rule control_key status.
Proof.
  unfold protected_by_rule, status_protects, valid_controls.
  intros H. repeat (destruct H as [<- | H]; [| try done ]);
    cbn [existsb String.eqb Ascii.eqb Bool.eqb orb andb];
    rewrite ?orb_true_iff, !contains_lower_spec; intuition discriminate.
Qed.

(** ** The inventory scan *)

Lemma getattr_status_valid (details : Computer) (control_key : string) :
  In control_key valid_controls → ∃ status, getattr_status details control_key = ok status.
Proof.
  unfold valid_controls. intros H.
  repeat (destruct H as [<- | H]; [by eexists |]). done.
Qed.

Lemma control_name_valid (control_key : string) :
  In control_key valid_controls → ∃ name, control_name control_key = ok name.
Proof.
  unfold valid_controls. intros H.
  repeat (destruct H as [<- | H]; [by eexists |]). done.
Qed.

Lemma annotation_of_valid (details : Computer) (control_key : string) :
  In control_key valid_controls →
  ∃ status name,
    getattr_status details control_key = ok status ∧
    control_name control_key = ok name ∧
    annotation_of control_key details = ok (format_status name status).
Proof.
  intros H.
  destruct (getattr_status_valid details _ H) as [status Hs].
  destruct (control_name_valid _ H) as [name Hn].
  exists status, name. unfold annotation_of. by rewrite Hs, Hn.
Qed.

Lemma format_status_nonempty (name status : string) :
  Str.nonempty (format_status name status) = true.
Proof. unfold format_status. by destruct name. Qed.

(** One host record: a record that does not match changes nothing; a
    matching one sets the message, and sets the flag when its status
    protects. *)
Lemma visit_no_match (env : Env) (control_key target : string) (details : Computer) (st : bool * string) :
  host_matches env target details = false → visit env control_key target details st = ok st.
Proof. intros H. destruct st. unfold visit. by rewrite H. Qed.

Lemma visit_match (env : Env) (control_key target : string) (details : Computer)
    (is_protected : bool) (detailed_msg status name : string) :
  host_matches env target details = true →
  getattr_status details control_key = ok status →
  control_name control_key = ok name →
  visit env control_key target details (is_protected, detailed_msg) =
  ok (status_protects control_key status || is_protected, format_status name status).
Proof.
  intros H Hs Hn. unfold visit. rewrite H, Hs, Hn. cbn.
  by destruct (status_protects control_key status).
Qed.

Lemma scan_app (env : Env) (control_key target : string) (l1 l2 : list (pyval * Computer))
    (st : bool * string) :
  scan env control_key target (l1 ++ l2)%list st =
  (scan env control_key target l1 st ≫= scan env control_key target l2).
Proof.
  revert st. induction l1 as [| [id d] l1 IH]; intros st; [done |].
  cbn [scan app]. destruct (visit env control_key target d st) as [e | st']; [done |].
  cbn. apply IH.
Qed.

Lemma last_match_cons (env : Env) (target : string) (id : pyval) (details : Computer)
    (computers : list (pyval * Computer)) :
  last_match env target ((id, details) :: computers) =
  match last_match env target computers with
  | Some d => Some d
  | None => if host_matches env target details then Some details else None
  end.
Proof.
  unfold last_match. cbn.
  destruct (host_matches env target details); [rewrite last_cons |]; by destruct (last _).
Qed.

(** The whole scan, for one of the six controls: it does not raise; the
    flag ends true exactly when it started true or some matching record
    satisfies the rule; the message ends as the annotation of the last
    matching record, or as it started when no record matches. *)
Lemma scan_valid (env : Env) (control_key target : string) (computers : list (pyval * Computer))
    (is_protected : bool) (detailed_msg : string) :
  In control_key valid_controls →
  ∃ is_protected' detailed_msg',
    scan env control_key target computers (is_protected, detailed_msg)
    = ok (is_protected', detailed_msg') ∧
    (is_protected' = true ↔
     is_protected = true ∨
     ∃ id details, In (id, details) computers ∧ host_matches env target details = true ∧
                   satisfies control_key details) ∧
    match last_match env target computers with
    | Some details => annotation_of control_key details = ok detailed_msg'
    | None => detailed_msg' = detailed_msg
    end.
Proof.
  intros Hk. revert is_protected detailed_msg.
  induction computers as [| [id d] rest IH]; intros p msg.
  - exists p, msg. split_and!; [done | | done].
    split; [by left | by intros [H | (? & ? & [] & _)]].
  - rewrite last_match_cons. cbn [scan].
    destruct (host_matches env target d) eqn:Hm.
    + destruct (annotation_of_valid d _ Hk) as (status & name & Hs & Hn & Ha).
      rewrite (visit_match _ _ _ _ _ _ _ _ Hm Hs Hn). cbn.
      destruct (IH (status_protects control_key status || p) (format_status name status))
        as (p' & msg' & -> & Hp & Hl).
      exists p', msg'. split_and!; [done | |].
      * rewrite Hp, orb_true_iff. split.
        -- intros [[H | H] | (id' & d' & Hin & Hm' & Hsat)].
           ++ right. exists id, d. split_and!; [by left | done |]. by exists status.
           ++ by left.
           ++ right. exists id', d'. split_and!; [by right | done..].
        -- intros [H | (id' & d' & [[= <- <-] | Hin] & Hm' & Hsat)].
           ++ left. by right.
           ++ destruct Hsat as (status' & Hs' & Hsat). left. left.
              rewrite Hs in Hs'. by injection Hs' as ->.
           ++ right. by exists id', d'.
      * destruct (last_match env target rest); [done |]. by rewrite Ha, Hl.
    + rewrite (visit_no_match _ _ _ _ _ Hm). cbn.
      destruct (IH p msg) as (p' & msg' & -> & Hp & Hl).
      exists p', msg'. split_and!; [done | | by destruct (last_match env target rest)].
      rewrite Hp. split.
      * intros [H | (id' & d' & Hin & Hm' & Hsat)]; [by left |].
        right. exists id', d'. split_and!; [by right | done..].
      * intros [H | (id' & d' & [[= <- <-] | Hin] & Hm' & Hsat)]; [by left | congruence |].
        right. by exists id', d'.
Qed.

(** Once set, the flag is never reset. *)
Lemma scan_monotone (env : Env) (control_key target : string) (computers : list (pyval * Computer))
    (detailed_msg : string) (is_protected' : bool) (detailed_msg' : string) :
  scan env control_key target computers (true, detailed_msg) = ok (is_protected', detailed_msg') →
  is_protected' = true.
Proof.
  revert detailed_msg. induction computers as [| [id d] rest IH]; intros msg; cbn [scan].
  - by intros [= <- _].
  - unfold visit. destruct (host_matches env target d).
    + destruct (getattr_status d control_key) as [e | status]; [discriminate |].
      cbn. destruct (control_name control_key) as [e | name]; [discriminate |].
      cbn. destruct (status_protects control_key status); apply IH.
    + cbn. apply IH.
Qed.

(** Without a matching record the scan leaves both variables alone. *)
Lemma scan_no_match (env : Env) (control_key target : string) (computers : list (pyval * Computer))
    (st : bool * string) :
  (∀ id details, In (id, details) computers → host_matches env target details = false) →
  scan env control_key target computers st = ok st.
Proof.
  induction computers as [| [id d] rest IH]; intros H; [done |].
  cbn [scan]. rewrite visit_no_match by (apply (H id); by left).
  cbn. apply IH. intros id' d' Hin. apply (H id'). by right.
Qed.

(** ** The evaluation *)

(** A validated event names one of the six controls and has its
    credentials resolved. *)
Lemma validated_control (env : Env) (event ev : dict) (tr : list call)
    (credentials : option (pyval * pyval)) :
  validate env event = (tr, Normal (ev, credentials)) →
  ∃ control_key c,
    control_key_of ev = ok control_key ∧ In control_key valid_controls ∧
    credentials = Some c.
Proof.
  intros Hv.
  destruct (validate_keys _ _ _ _ _ Hv) as (_ & [rp Hrp] & _).
  apply validate_normal in Hv as (_ & _ & Hr).
  destruct (rule_parameters_normal _ _ _ _ _ Hrp Hr) as (c & -> & _ & Hi).
  unfold control_invalid, py_or, py_not in Hi.
  destruct (py_contains rp "dsControl") as [e | []]; cbn -[existsb valid_controls] in Hi;
    [discriminate | | discriminate].
  destruct (py_getitem rp "dsControl") as [e | v] eqn:Ev; [discriminate |].
  cbn -[existsb valid_controls] in Hi.
  destruct (py_lower v) as [e | key] eqn:El; [discriminate |].
  cbn -[existsb valid_controls] in Hi.
  destruct (existsb (String.eqb key) valid_controls) eqn:Ex;
    [| cbn in Hi; unfold ok in Hi; discriminate].
  exists key, c. split_and!; [| | done].
  - unfold control_key_of. rewrite (py_getitem_dict _ _ _ Hrp). cbn. rewrite Ev. cbn. done.
  - apply existsb_exists in Ex as (k & Hk & Ex). apply String.eqb_eq in Ex. by subst.
Qed.

(** With a manager bound, the evaluation fetches the inventory, scans it
    and signs out. *)
Lemma evaluate_inspects (env : Env) (ev : dict) (credentials : option (pyval * pyval))
    (instance_id : pyval) (tr : list call) (mgr : Manager) (control_key target : string)
    (computers : list (pyval * Computer)) (st : bool * string) :
  connect env ev credentials = (tr, Normal (Some mgr)) →
  control_key_of ev = ok control_key →
  computers_get env mgr = ok computers →
  target_of env instance_id = ok target →
  scan env control_key target computers (false, "") = ok st →
  sign_out env mgr = ok tt →
  evaluate env ev credentials instance_id =
  ((tr ++ [CallComputersGet mgr; CallSignOut mgr])%list, Normal st).
Proof.
  intros Hc Hk Hg Ht Hs Ho. unfold evaluate. rewrite Hc, bind_normal.
  unfold inspect. rewrite Hk, bind_pure_ok, Hg, bind_invoke_ok, Ht, bind_pure_ok,
    Hs, bind_pure_ok, Ho, bind_invoke_ok.
  done.
Qed.

Lemma submission_outcome_is_structured_witness :
  ∃ (evaluation : Evaluation) (token : pyval) (calls : list call) (r : dict),
    aws_config_rule_handler (Sample.env (Sample.one_host "On")) (Sample.event "firewall")
    = (calls, ok r) ∧
    last calls = Some (CallPutEvaluations [evaluation] token) ∧
    r !! "annotation" = Some (PStr "Firewall status: On") ∧
    (∀ err, put_evaluations (Sample.env (Sample.one_host "On")) [evaluation] token = raise err →
            r !! "result" = Some (PStr "failure") ∧ r !! "response" = None) ∧
    (∀ response,
       put_evaluations (Sample.env (Sample.one_host "On")) [evaluation] token = ok response →
       r !! "result" = Some (PStr "success") ∧ r !! "response" = Some response).
Proof.
  apply (submission_outcome_is_structured (Sample.env (Sample.one_host "On"))
           (Sample.event "firewall") (Sample.event "firewall") Sample.credential_calls
           [CallManager Sample.manager; CallSignIn Sample.manager;
            CallComputersGet Sample.manager; CallSignOut Sample.manager]
           (Some (PStr "admin", PStr "secret")) (PStr "i-0abc") true "Firewall status: On");
    reflexivity.
Defined.

(** C3.  For a host record that matches the target and one of the six
    control keys, the visit of the record reads the status of that control
    and sets the protection flag, starting from false, exactly when the
    status satisfies the rule of the specification: for [anti_malware] and
    [integrity_monitoring] the status contains "On, Real Time" or
    " On, Security Update In Progress, Real Time"; for
    [intrusion_prevention] it contains "On, Prevent"; for [web_reputation],
    [firewall] and [log_inspection] it contains "On"; containment is of
    substrings with case ignored.  In particular a run over one matching
    host submits [COMPLIANT] for firewall status "On", and [NON_COMPLIANT]
    for intrusion prevention status "On, Detect" and for anti-malware status
    "Off". *)
Theorem classification_follows_the_rule (env : Env) (control_key target : string) (details : Computer)
    (detailed_msg : string) :
  In control_key valid_controls →
  host_matches env target details = true →
  (∃ status is_protected detailed_msg',
     getattr_status details control_key = ok status ∧
     visit env control_key target details (false, detailed_msg) = ok (is_protected, detailed_msg') ∧
     (is_protected = true ↔ protected_by_rule control_key status)) ∧
  verdict (aws_config_rule_handler (Sample.env (Sample.one_host "On"))
             (Sample.event "firewall")) = Some "COMPLIANT" ∧
  verdict (aws_config_rule_handler (Sample.env (Sample.one_host "On, Detect"))
             (Sample.event "intrusion_prevention")) = Some "NON_COMPLIANT" ∧
  verdict (aws_config_rule_handler (Sample.env (Sample.one_host "Off"))
             (Sample.event "anti_malware")) = Some "NON_COMPLIANT".
Proof.
  intros Hk Hm. split; [| by vm_compute].
  destruct (annotation_of_valid details _ Hk) as (status & name & Hs & Hn & _).
  exists status, (status_protects control_key status), (format_status name status).
  split_and!; [done | | by apply status_protects_spec].
  rewrite (visit_match _ _ _ _ _ _ _ _ Hm Hs Hn). by rewrite orb_false_r.
Qed.

Lemma classification_follows_the_rule_witness :
  (∃ status is_protected detailed_msg',
     getattr_status (Sample.host (Some " I-0ABC ") "on, prevent") "intrusion_prevention"
     = ok status ∧
     visit (Sample.env []) "intrusion_prevention" "i-0abc"
       (Sample.host (Some " I-0ABC ") "on, prevent") (false, "")
     = ok (is_protected, detailed_msg') ∧
     (is_protected = true ↔ protected_by_rule "intrusion_prevention" status)) ∧
  verdict (aws_config_rule_handler (Sample.env (Sample.one_host "On"))
             (Sample.event "firewall")) = Some "COMPLIANT" ∧
  verdict (aws_config_rule_handler (Sample.env (Sample.one_host "On, Detect"))
             (Sample.event "intrusion_prevention")) = Some "NON_COMPLIANT" ∧
  verdict (aws_config_rule_handler (Sample.env (Sample.one_host "Off"))
             (Sample.event "anti_malware")) = Some "NON_COMPLIANT".
Proof.
  apply (classification_follows_the_rule (Sample.env []) "intrusion_prevention" "i-0abc"
           (Sample.host (Some " I-0ABC ") "on, prevent") "").
  - right. right. right. left. reflexivity.
  - reflexivity.
Defined.

(** The handler on an in-scope event whose manager is bound, whose
    inventory is fetched and whose session is closed: the scan decides the
    evaluation submitted. *)
Lemma handler_scans (env : Env) (event ev : dict) (tr tr1 : list call)
    (credentials : option (pyval * pyval)) (instance_id control_key : string)
    (mgr : Manager) (computers : list (pyval * Computer)) (st : bool * string) :
  validate env event = (tr, Normal (ev, credentials)) →
  scope_filter ev = ok (PStr instance_id) →
  Str.nonempty instance_id = true →
  connect env ev credentials = (tr1, Normal (Some mgr)) →
  control_key_of ev = ok control_key →
  computers_get env mgr = ok computers →
  scan env control_key (str_strip env (str_lower env instance_id)) computers (false, "") = ok st →
  sign_out env mgr = ok tt →
  evaluate env ev credentials (PStr instance_id) =
    ((tr1 ++ [CallComputersGet mgr; CallSignOut mgr])%list, Normal st) ∧
  ∃ resource_type token calls r,
    aws_config_rule_handler env event = (calls, ok r) ∧
    last calls = Some (CallPutEvaluations
                         [make_evaluation env resource_type (PStr instance_id)
                            (compliance_type st.1) st.2] token) ∧
    r !! "annotation" = (if Str.nonempty st.2 then Some (PStr st.2) else None).
Proof.
  intros Hv Hs Hn Hc Hk Hg Hscan Ho.
  pose proof (evaluate_inspects env ev credentials (PStr instance_id) tr1 mgr control_key
                _ computers st Hc Hk Hg eq_refl Hscan Ho) as He.
  split; [done |]. destruct st as [p msg].
  destruct (handler_reports _ _ _ _ _ _ _ _ _ Hv Hs Hn He) as (rt & token & _ & _ & H).
  cbv zeta in H. eexists rt, token, _, _. split; [exact H |].
  split; [by rewrite !last_app |].
  pose proof (initial_result_annotation msg) as Ha. cbn [fst snd].
  destruct (put_evaluations env _ token); by simplify_map_eq.
Qed.

(** C8.  On an in-scope EC2 event (validated, with the instance id a
    non-empty text), when the manager is built and signed in, the inventory
    is fetched, no host record has a cloud instance id equal to the target
    once both are lowercased and trimmed (by [lower()] and [strip()] of the
    runtime, on any text), and the session is closed, then
    the evaluation ends with protection false and no message, and the run
    ends by submitting an evaluation of type [NON_COMPLIANT] for that
    resource id, without annotation; the mapping returned has no annotation
    either. *)
Theorem no_matching_host_is_non_compliant (env : Env) (event ev : dict)
    (tr tr1 : list call) (credentials : option (pyval * pyval)) (instance_id : string)
    (mgr : Manager) (computers : list (pyval * Computer)) :
  validate env event = (tr, Normal (ev, credentials)) →
  scope_filter ev = ok (PStr instance_id) →
  Str.nonempty instance_id = true →
  connect env ev credentials = (tr1, Normal (Some mgr)) →
  sign_in env mgr = ok tt →
  computers_get env mgr = ok computers →
  (∀ id details cloud_id,
     In (id, details) computers →
     cloud_object_instance_id details = Some cloud_id →
     str_strip env (str_lower env cloud_id) ≠ str_strip env (str_lower env instance_id)) →
  sign_out env mgr = ok tt →
  evaluate env ev credentials (PStr instance_id) =
    ((tr1 ++ [CallComputersGet mgr; CallSignOut mgr])%list, Normal (false, "")) ∧
  ∃ (evaluation : Evaluation) (token : pyval) (calls : list call) (r : dict),
    aws_config_rule_handler env event = (calls, ok r) ∧
    last calls = Some (CallPutEvaluations [evaluation] token) ∧
    ComplianceType evaluation = "NON_COMPLIANT" ∧
    ComplianceResourceId evaluation = PStr instance_id ∧
    Annotation evaluation = None ∧
    r !! "annotation" = None.
Proof.
  intros Hv Hs Hn Hc _ Hg Hnone Ho.
  destruct (validated_control _ _ _ _ _ Hv) as (key & c & Hk & _ & _).
  assert (Hscan : scan env key (str_strip env (str_lower env instance_id)) computers (false, "")
                  = ok (false, "")).
  { apply scan_no_match. intros id d Hin. unfold host_matches.
    destruct (cloud_object_instance_id d) as [cloud_id |] eqn:E; [| done].
    apply andb_false_iff. right. apply String.eqb_neq. by apply (Hnone id d). }
  destruct (handler_scans _ _ _ _ _ _ _ _ _ _ _ Hv Hs Hn Hc Hk Hg Hscan Ho)
    as (He & rt & token & calls & r & Hrun & Hlast & Hr).
  split; [done |].
  by exists (make_evaluation env rt (PStr instance_id) "NON_COMPLIANT" ""), token, calls, r.
Qed.

Lemma no_matching_host_is_non_compliant_witness :
  evaluate (Sample.env [(PInt 7, Sample.host (Some "i-0other") "On")]) (Sample.event "firewall")
    (Some (PStr "admin", PStr "secret")) (PStr "i-0abc") =
    (([CallManager Sample.manager; CallSignIn Sample.manager]
      ++ [CallComputersGet Sample.manager; CallSignOut Sample.manager])%list,
     Normal (false, "")) ∧
  ∃ (evaluation : Evaluation) (token : pyval) (calls : list call) (r : dict),
    aws_config_rule_handler (Sample.env [(PInt 7, Sample.host (Some "i-0other") "On")])
      (Sample.event "firewall") = (calls, ok r) ∧
    last calls = Some (CallPutEvaluations [evaluation] token) ∧
    ComplianceType evaluation = "NON_COMPLIANT" ∧
    ComplianceResourceId evaluation = PStr "i-0abc" ∧
    Annotation evaluation = None ∧
    r !! "annotation" = None.
Proof.
  apply (no_matching_host_is_non_compliant
           (Sample.env [(PInt 7, Sample.host (Some "i-0other") "On")])
           (Sample.event "firewall") (Sample.event "firewall") Sample.credential_calls
           [CallManager Sample.manager; CallSignIn Sample.manager]
           (Some (PStr "admin", PStr "secret")) "i-0abc" Sample.manager
           [(PInt 7, Sample.host (Some "i-0other") "On")]);
    try reflexivity.
  intros id details cloud_id [[= <- <-] | []] [= <-]. vm_compute. discriminate.
Defined.

(** C9.  During the scan the protection flag is monotone: a scan that
    starts with the flag set ends with it set, so a flag set after a prefix
    of the inventory is still set at the end.  Hence, on an in-scope EC2
    event whose manager is bound, whose inventory is fetched and whose
    session is closed, the evaluation submitted is [COMPLIANT] exactly when
    some host record matching the target (equal cloud instance id, both
    lowercased and trimmed by the runtime) has a status satisfying the rule
    of the control, whatever the number of matching records; the annotation
    submitted and returned is the one of the last matching record of the
    inventory, and there is none when no record matches. *)
Theorem verdict_is_any_match_annotation_is_last (env : Env) (event ev : dict)
    (tr tr1 : list call) (credentials : option (pyval * pyval)) (instance_id : string)
    (mgr : Manager) (computers : list (pyval * Computer)) :
  validate env event = (tr, Normal (ev, credentials)) →
  scope_filter ev = ok (PStr instance_id) →
  Str.nonempty instance_id = true →
  connect env ev credentials = (tr1, Normal (Some mgr)) →
  computers_get env mgr = ok computers →
  sign_out env mgr = ok tt →
  let target := str_strip env (str_lower env instance_id) in
  ∃ (control_key : string) (evaluation : Evaluation) (token : pyval)
    (calls : list call) (r : dict),
    control_key_of ev = ok control_key ∧
    aws_config_rule_handler env event = (calls, ok r) ∧
    last calls = Some (CallPutEvaluations [evaluation] token) ∧
    (∀ rest detailed_msg is_protected detailed_msg',
       scan env control_key target rest (true, detailed_msg) = ok (is_protected, detailed_msg') →
       is_protected = true) ∧
    (∀ visited rest detailed_msg,
       computers = (visited ++ rest)%list →
       scan env control_key target visited (false, "") = ok (true, detailed_msg) →
       ComplianceType evaluation = "COMPLIANT") ∧
    (ComplianceType evaluation = "COMPLIANT" ↔
     ∃ id details, In (id, details) computers ∧ host_matches env target details = true ∧
                   satisfies control_key details) ∧
    (ComplianceType evaluation = "COMPLIANT" ∨ ComplianceType evaluation = "NON_COMPLIANT") ∧
    match last_match env target computers with
    | Some details =>
        ∃ annotation, annotation_of control_key details = ok annotation ∧
                      Annotation evaluation = Some annotation ∧
                      r !! "annotation" = Some (PStr annotation)
    | None => Annotation evaluation = None ∧ r !! "annotation" = None
    end.
Proof.
  intros Hv Hs Hn Hc Hg Ho target.
  destruct (validated_control _ _ _ _ _ Hv) as (key & c & Hk & Hvalid & _).
  destruct (scan_valid env key target computers false "" Hvalid) as (p & msg & Hscan & Hp & Hl).
  destruct (handler_scans _ _ _ _ _ _ _ _ _ _ _ Hv Hs Hn Hc Hk Hg Hscan Ho)
    as (_ & rt & token & calls & r & Hrun & Hlast & Hr).
  cbn [fst snd] in Hlast, Hr.
  exists key, (make_evaluation env rt (PStr instance_id) (compliance_type p) msg),
    token, calls, r.
  split_and!; [done | done | done | | | | |].
  - intros rest m p' m'. apply scan_monotone.
  - intros visited rest m -> Hpre. rewrite scan_app, Hpre in Hscan. cbn in Hscan.
    apply scan_monotone in Hscan as ->. done.
  - cbn. transitivity (p = true); [by destruct p |].
    rewrite Hp. split; [by intros [[=] | H] | by right].
  - cbn. destruct p; [by left | by right].
  - destruct (last_match env target computers) as [d |].
    + destruct (annotation_of_valid d _ Hvalid) as (status & name & _ & _ & Ha).
      rewrite Ha in Hl. injection Hl as <-.
      exists (format_status name status). cbn.
      rewrite format_status_nonempty in *. done.
    + subst msg. done.
Qed.

Lemma verdict_is_any_match_annotation_is_last_witness :
  let env := Sample.env [(PInt 1, Sample.host (Some "i-0abc") "On");
                         (PInt 2, Sample.host (Some " I-0ABC ") "Off");
                         (PInt 3, Sample.host (Some "i-0other") "On")] in
  ∃ (evaluation : Evaluation) (token : pyval) (calls : list call) (r : dict),
    aws_config_rule_handler env (Sample.event "firewall") = (calls, ok r) ∧
    last calls = Some (CallPutEvaluations [evaluation] token) ∧
    ComplianceType evaluation = "COMPLIANT" ∧
    Annotation evaluation = Some "Firewall status: Off" ∧
    r !! "annotation" = Some (PStr "Firewall status: Off").
Proof.
  intros env.
  destruct (verdict_is_any_match_annotation_is_last env
              (Sample.event "firewall") (Sample.event "firewall") Sample.credential_calls
              [CallManager Sample.manager; CallSignIn Sample.manager]
              (Some (PStr "admin", PStr "secret")) "i-0abc" Sample.manager
              [(PInt 1, Sample.host (Some "i-0abc") "On");
               (PInt 2, Sample.host (Some " I-0ABC ") "Off");
               (PInt 3, Sample.host (Some "i-0other") "On")]
              eq_refl eq_refl eq_refl eq_refl eq_refl eq_refl)
    as (key & evaluation & token & calls & r & Hk & Hrun & Hlast & _ & Hprefix & _ & _ & Ha).
  injection Hk as <-.
  destruct Ha as (annotation & Hann & Ha & Hr). injection Hann as <-.
  exists evaluation, token, calls, r. split_and!; [done | done | | done | done].
  apply (Hprefix [(PInt 1, Sample.host (Some "i-0abc") "On")]
           [(PInt 2, Sample.host (Some " I-0ABC ") "Off");
            (PInt 3, Sample.host (Some "i-0other") "On")] "Firewall status: On");
    reflexivity.
Defined.

(** ** Where the code departs from the specification *)

(** With one of the two lookup keys present and the other absent, the
    credential block does not return: it raises on the absent key. *)
Lemma resolve_credentials_without_username (env : Env) (rp : dict) :
  rp !! "dsUsernameKey" = None →
  is_Some (rp !! "dsPasswordKey") →
  resolve_credentials env (PDict rp) = ([], Raise (KeyError "dsUsernameKey")).
Proof.
  intros Hu Hp. unfold resolve_credentials, credentials_missing, py_and, py_or, py_not.
  rewrite !py_contains_dict, (has_None _ _ Hu), (proj2 (has_true _ _) Hp).
  cbn. by rewrite Hu.
Qed.

Lemma resolve_credentials_without_password (env : Env) (rp : dict) (username_key : pyval) :
  rp !! "dsUsernameKey" = Some username_key →
  rp !! "dsPasswordKey" = None →
  resolve_credentials env (PDict rp) = ([], Raise (KeyError "dsPasswordKey")).
Proof.
  intros Hu Hp. unfold resolve_credentials, credentials_missing, py_and, py_or, py_not.
  rewrite !py_contains_dict, (has_Some _ _ _ Hu).
  cbn. by rewrite Hu, Hp.
Qed.

(** The two ways the [try] block of lines 78-83 fails: an exception of the
    constructor leaves [mgr] unset, an exception of [sign_in] leaves it
    bound. *)
Lemma authenticate_constructor_raises (env : Env) (ds_username ds_password : pyval)
    (ds_tenant ds_hostname ds_port ds_ignore_ssl_validation : pyval) (err : exn) :
  let mgr := {| username := ds_username; password := ds_password; tenant := ds_tenant;
                hostname := ds_hostname; port := ds_port;
                ignore_ssl_validation := ds_ignore_ssl_validation |} in
  Manager_init env mgr = raise err →
  authenticate env (Some (ds_username, ds_password))
    ds_tenant ds_hostname ds_port ds_ignore_ssl_validation
  = ([CallManager mgr], Normal None).
Proof. intros mgr H. unfold authenticate. fold mgr. by rewrite H. Qed.

Lemma authenticate_sign_in_raises (env : Env) (ds_username ds_password : pyval)
    (ds_tenant ds_hostname ds_port ds_ignore_ssl_validation : pyval) (err : exn) :
  let mgr := {| username := ds_username; password := ds_password; tenant := ds_tenant;
                hostname := ds_hostname; port := ds_port;
                ignore_ssl_validation := ds_ignore_ssl_validation |} in
  Manager_init env mgr = ok tt →
  sign_in env mgr = raise err →
  authenticate env (Some (ds_username, ds_password))
    ds_tenant ds_hostname ds_port ds_ignore_ssl_validation
  = ([CallManager mgr; CallSignIn mgr], Normal (Some mgr)).
Proof. intros mgr H1 H2. unfold authenticate. fold mgr. by rewrite H1, H2. Qed.

(** C1.  An event with the four top-level keys whose rule parameters lack
    [dsUsernameKey] is not answered with a ['requirements_not_met']
    mapping: the condition of lines 46-48 is false as soon as one of the two
    keys is present, or both [dsTenant] and [dsHostname] are, and line 52
    then raises [KeyError] on the missing key, before any collaborator is
    called.  The same happens without [dsPasswordKey], and without both keys
    when [dsTenant] and [dsHostname] are given. *)
Theorem missing_credential_key_raises (env : Env) :
  aws_config_rule_handler env Sample.event_without_username
  = ([], raise (KeyError "dsUsernameKey")) ∧
  aws_config_rule_handler env Sample.event_without_password
  = ([], raise (KeyError "dsPasswordKey")) ∧
  aws_config_rule_handler env Sample.event_with_tenant_and_hostname
  = ([], raise (KeyError "dsUsernameKey")).
Proof. split_and!; reflexivity. Qed.

(** C2.  When the manager is built and [sign_in] raises, [mgr] is already
    bound, so the block of lines 85-117 runs: the inventory is fetched.  If
    that fetch raises in its turn, the exception leaves the handler and
    nothing is submitted; if it answers with a protected matching host, the
    session is closed and [COMPLIANT] is submitted. *)
Theorem failed_sign_in_keeps_the_manager :
  aws_config_rule_handler
    (Sample.env_with (raise (Error "sign-in failed")) (raise (Error "no session")))
    (Sample.event "firewall")
  = ((Sample.credential_calls ++
      [CallManager Sample.manager; CallSignIn Sample.manager;
       CallComputersGet Sample.manager])%list,
     raise (Error "no session")) ∧
  let run :=
    aws_config_rule_handler
      (Sample.env_with (raise (Error "sign-in failed")) (ok (Sample.one_host "On")))
      (Sample.event "firewall") in
  In (CallComputersGet Sample.manager) run.1 ∧
  In (CallSignOut Sample.manager) run.1 ∧
  verdict run = Some "COMPLIANT".
Proof.
  split; [reflexivity |]. vm_compute. split_and!; [| | reflexivity]; tauto.
Qed.

(** * Further properties of the handler *)

(** ** Every run follows one of the paths *)

Lemma bind_pure_raise {A B} (e : exn) (f : A → M B) : (pure (raise e) ≫= f) = ([], Raise e).
Proof. reflexivity. Qed.

Lemma bind_invoke_raise {A B} (c : call) (e : exn) (f : A → M B) :
  (invoke c (raise e) ≫= f) = ([c], Raise e).
Proof. reflexivity. Qed.

(** The sign-in block swallows every exception: it ends with [mgr] unset
    and at most the constructor called, or with [mgr] bound after the
    constructor and [sign_in] were called. *)
Lemma authenticate_cases (env : Env) (credentials : option (pyval * pyval))
    (ds_tenant ds_hostname ds_port ds_ignore_ssl_validation : pyval) :
  authenticate env credentials ds_tenant ds_hostname ds_port ds_ignore_ssl_validation
  = ([], Normal None) ∨
  (∃ mgr, authenticate env credentials ds_tenant ds_hostname ds_port ds_ignore_ssl_validation
          = ([CallManager mgr], Normal None)) ∨
  (∃ mgr, authenticate env credentials ds_tenant ds_hostname ds_port ds_ignore_ssl_validation
          = ([CallManager mgr; CallSignIn mgr], Normal (Some mgr))).
Proof.
  unfold authenticate. destruct credentials as [[u p] |]; [| by left].
  destruct (Manager_init env _) as [e | []]; [right; left; by eexists |].
  right. right. destruct (sign_in env _) as [e | []]; by eexists.
Qed.

Lemma connect_cases (env : Env) (ev : dict) (credentials : option (pyval * pyval)) :
  (∃ e, connect env ev credentials = ([], Raise e)) ∨
  connect env ev credentials = ([], Normal None) ∨
  (∃ mgr, connect env ev credentials = ([CallManager mgr], Normal None)) ∨
  (∃ mgr, connect env ev credentials = ([CallManager mgr; CallSignIn mgr], Normal (Some mgr))).
Proof.
  unfold connect.
  destruct (py_getitem (PDict ev) "ruleParameters") as [e | rp];
    [left; by exists e | rewrite bind_pure_ok].
  destruct (get_or rp "dsTenant" PNone) as [e | t]; [left; by exists e | rewrite bind_pure_ok].
  destruct (get_or rp "dsHostname" PNone) as [e | h]; [left; by exists e | rewrite bind_pure_ok].
  destruct (get_or rp "dsPort" (PInt 443)) as [e | p]; [left; by exists e | rewrite bind_pure_ok].
  match goal with |- context [pure ?r ≫= _] => destruct r as [e | i] end;
    [left; by exists e | rewrite bind_pure_ok].
  right. apply authenticate_cases.
Qed.

Lemma evaluate_path (env : Env) (ev : dict) (credentials : option (pyval * pyval))
    (instance_id : pyval) :
  evaluation_path env ev credentials instance_id
    (evaluate env ev credentials instance_id).1 (evaluate env ev credentials instance_id).2.
Proof.
  unfold evaluate.
  destruct (connect_cases env ev credentials) as [[e H] | [H | [[mgr H] | [mgr H]]]]; rewrite H.
  - by apply ParametersRaise.
  - apply NoManager; [done | constructor].
  - apply NoManager; [done | by repeat constructor].
  - rewrite bind_normal. unfold inspect.
    destruct (control_key_of ev) as [e | key] eqn:Ek.
    { rewrite bind_pure_raise. by apply (InspectionRaises _ _ _ _ mgr []); [| left]. }
    rewrite bind_pure_ok.
    destruct (computers_get env mgr) as [e | computers] eqn:Eg.
    { rewrite bind_invoke_raise. by apply (InspectionRaises _ _ _ _ mgr [_]); [| right]. }
    rewrite bind_invoke_ok.
    destruct (target_of env instance_id) as [e | target] eqn:Et.
    { rewrite bind_pure_raise. by apply (InspectionRaises _ _ _ _ mgr [_]); [| right]. }
    rewrite bind_pure_ok.
    destruct (scan env key target computers (false, "")) as [e | st] eqn:Es.
    { rewrite bind_pure_raise. by apply (InspectionRaises _ _ _ _ mgr [_]); [| right]. }
    rewrite bind_pure_ok.
    destruct (sign_out env mgr) as [e | []] eqn:Eo.
    { rewrite bind_invoke_raise. by apply SignOutRaises. }
    rewrite bind_invoke_ok. by eapply Inspected.
Qed.

Lemma handler_path (env : Env) (event : dict) :
  path env event (aws_config_rule_handler env event).1 (aws_config_rule_handler env event).2.
Proof.
  destruct (validate env event) as [tr [[ev credentials] | r | e]] eqn:Hv.
  - destruct (scope_filter ev) as [e | instance_id] eqn:Hs.
    { rewrite (handler_validated _ _ _ _ _ Hv). unfold evaluate_and_report.
      rewrite Hs, bind_pure_raise, app_nil_r. by eapply ScopeRaises. }
    destruct (truthy instance_id) eqn:Ht.
    + pose proof (evaluate_path env ev credentials instance_id) as Hp.
      destruct (evaluate env ev credentials instance_id) as [tr1 [[p msg] | r | e]] eqn:He;
        cbn [fst snd] in Hp.
      * destruct (handler_reports _ _ _ _ _ _ _ _ _ Hv Hs Ht He)
          as (rt & token & Htok & (ie & item & Hie & Hitem & Hrt) & Hrun).
        cbv zeta in Hrun. rewrite Hrun.
        by eapply (Reported env event tr tr1 ev credentials instance_id ie item rt token).
      * inversion Hp.
      * rewrite (handler_validated _ _ _ _ _ Hv). unfold evaluate_and_report.
        rewrite Hs, bind_pure_ok, Ht, He, bind_raise. by eapply EvaluationRaises.
    + rewrite (handler_validated _ _ _ _ _ Hv).
      rewrite (evaluate_and_report_no_instance _ _ _ _ Hs Ht). by eapply OutOfScope.
  - rewrite (handler_rejected _ _ _ _ Hv). by apply Rejected.
  - unfold aws_config_rule_handler. rewrite Hv. by apply ValidationRaises.
Qed.

Lemma required_keys_cases (event : dict) :
  ((event !! "invokingEvent" = None ∨ event !! "ruleParameters" = None ∨
    event !! "resultToken" = None ∨ event !! "eventLeftScope" = None) ∧
   required_keys event = return_ {[ "result" := PStr "error" ]}) ∨
  required_keys event = ([], Normal tt).
Proof.
  destruct (event !! "invokingEvent") as [v1 |] eqn:E1;
    [| left; split; [by left | apply required_keys_missing; by left]].
  destruct (event !! "ruleParameters") as [v2 |] eqn:E2;
    [| left; split; [by right; left | apply required_keys_missing; by right; left]].
  destruct (event !! "resultToken") as [v3 |] eqn:E3;
    [| left; split; [by right; right; left | apply required_keys_missing; by right; right; left]].
  destruct (event !! "eventLeftScope") as [v4 |] eqn:E4;
    [| left; split; [by right; right; right | apply required_keys_missing; by right; right; right]].
  right. apply required_keys_normal. rewrite E1, E2, E3, E4. by split_and!.
Qed.

(** Deserializing never removes a key. *)
Lemma deserialize_keeps (env : Env) (key key' : string) (event event' : dict) :
  deserialize env key event = ok event' → is_Some (event !! key') → is_Some (event' !! key').
Proof.
  unfold deserialize. destruct (event !! key) as [v |] eqn:E; [| by intros [= <-]].
  destruct (is_dict v); cbn; [by intros [= <-] |].
  destruct (py_json_loads env v) as [e | v']; [discriminate |].
  cbn. intros [= <-]. by rewrite lookup_insert_is_Some'; right.
Qed.

Lemma deserialize_blocks_keeps (env : Env) (key : string) (event event' : dict) :
  deserialize_blocks env event = ok event' → is_Some (event !! key) → is_Some (event' !! key).
Proof.
  unfold deserialize_blocks.
  destruct (deserialize env "ruleParameters" event) as [e | ev1] eqn:E1; [discriminate |].
  cbn. intros E2 H. by eapply deserialize_keeps, deserialize_keeps.
Qed.

Lemma validate_unfold (env : Env) (event ev : dict) :
  required_keys event = ([], Normal tt) →
  deserialize_blocks env event = ok ev →
  validate env event = (rule_parameters env ev ≫= λ credentials, mret (ev, credentials)).
Proof.
  intros Hk Hd. unfold validate. rewrite Hk, bind_normal, Hd, bind_pure_ok.
  by destruct (rule_parameters env ev ≫= _).
Qed.

Lemma validate_path (env : Env) (event : dict) :
  validation_path env event (validate env event).1 (validate env event).2.
Proof.
  destruct (required_keys_cases event) as [[Hm Hr] | Hk].
  { unfold validate. rewrite Hr. by apply KeyMissing. }
  destruct (deserialize_blocks env event) as [e | ev] eqn:Hd.
  { unfold validate. rewrite Hk, bind_normal, Hd. by apply BlockRaises. }
  rewrite (validate_unfold _ _ _ Hk Hd).
  assert (is_Some (ev !! "ruleParameters")) as [rp Hrp].
  { apply (deserialize_blocks_keeps env _ event ev Hd).
    by pose proof (proj1 (required_keys_normal _ _) Hk) as (_ & _ & H & _). }
  unfold rule_parameters. rewrite Hrp. unfold resolve_credentials.
  destruct (credentials_missing rp) as [e | []] eqn:Hmiss;
    [by eapply CredentialsTestRaises | by eapply CredentialsMissing |].
  destruct (py_getitem rp "dsUsernameKey") as [e | uk] eqn:Hu.
  { eapply CredentialKeyRaises; [done.. |]. by left. }
  destruct (py_getitem rp "dsPasswordKey") as [e | pk] eqn:Hp.
  { eapply CredentialKeyRaises; [done.. |]. right. split; [by exists uk | done]. }
  destruct (py_getitem_ok _ _ _ Hu) as (d & -> & Hu').
  destruct (py_getitem_ok _ _ _ Hp) as (d' & [= <-] & Hp').
  rewrite !bind_pure_ok.
  set (c := {| username_key := uk; password_key := pk |}).
  destruct (Credentials_init env c) as [e | []] eqn:Hc.
  { eapply (ResolverRaises env event ev d c); [done.. |]. by left. }
  destruct (get_username env c) as [e | u] eqn:Hgu.
  { eapply (ResolverRaises env event ev d c); [done.. |]. right. by left. }
  destruct (get_password env c) as [e | p] eqn:Hgp.
  { eapply (ResolverRaises env event ev d c); [done.. |]. right. right.
    split_and!; [done | done | by exists u | done]. }
  unfold require_control.
  destruct (control_invalid (PDict d)) as [e | []] eqn:Hi.
  - by eapply (ControlTestRaises env event ev d c).
  - by eapply (ControlInvalid env event ev d c).
  - by eapply (Validated env event ev d c).
Qed.

(** ** The calls of a run *)

Lemma validation_calls (env : Env) (event : dict) (tr : list call)
    (o : outcome (dict * option (pyval * pyval))) :
  validate env event = (tr, o) →
  ∃ c, tr `prefix_of` resolver_calls c ∧ (∀ x, o = Normal x → tr = resolver_calls c).
Proof.
  intros H. pose proof (validate_path env event) as Hp. rewrite H in Hp. cbn [fst snd] in Hp.
  set (c0 := {| username_key := PNone; password_key := PNone |}).
  inversion Hp as [ | | | | | ev rp c tr' e _ _ _ _ _ Hr | | | ]; subst;
    try (exists c0; split; [apply prefix_nil | done]);
    try (eexists; split; [reflexivity | done]).
  exists c. split; [| done].
  destruct Hr as [[-> _] | [[-> _] | [-> _]]]; [by eexists [_; _] | by eexists [_] | done].
Qed.

Lemma evaluation_calls (env : Env) (ev : dict) (credentials : option (pyval * pyval))
    (instance_id : pyval) (tr : list call) (o : outcome (bool * string)) :
  evaluation_path env ev credentials instance_id tr o →
  ∃ mgr, tr `prefix_of` manager_calls mgr.
Proof.
  set (m0 := {| username := PNone; password := PNone; tenant := PNone; hostname := PNone;
                port := PNone; ignore_ssl_validation := PNone |}).
  intros [e H | tr' H _ | mgr tr' e H [-> | ->] | mgr e H _ | mgr key target inv st H _ _ _ _ _].
  - exists m0. apply prefix_nil.
  - destruct (connect_cases env ev credentials) as [[e H'] | [H' | [[mgr H'] | [mgr H']]]];
      rewrite H' in H; try discriminate; injection H as <-.
    + exists m0. apply prefix_nil.
    + exists mgr. by eexists [_; _; _].
  - exists mgr. by eexists [_; _].
  - exists mgr. by eexists [_].
  - by exists mgr.
  - by exists mgr.
Qed.

(** X11.  In every run the calls come in one fixed order, each at most
    once: first the credentials resolver (constructor, [get_username],
    [get_password]), then the manager (constructor, [sign_in],
    [computers.get], [sign_out]), then AWS (the Config client, and at most
    one submission, of exactly one evaluation, as the last call).  The
    manager and AWS are contacted only after the three resolver calls were
    made. *)
Theorem calls_come_in_a_fixed_order (env : Env) (event : dict) :
  ∃ (c : Credentials) (mgr : Manager) (resolver manager aws : list call),
    (aws_config_rule_handler env event).1 = (resolver ++ manager ++ aws)%list ∧
    resolver `prefix_of` resolver_calls c ∧
    manager `prefix_of` manager_calls mgr ∧
    (aws = [] ∨ aws = [CallBoto3Client "config"] ∨
     ∃ evaluation token,
       aws = [CallBoto3Client "config"; CallPutEvaluations [evaluation] token]) ∧
    (manager ≠ [] ∨ aws ≠ [] → resolver = resolver_calls c).
Proof.
  set (m0 := {| username := PNone; password := PNone; tenant := PNone; hostname := PNone;
                port := PNone; ignore_ssl_validation := PNone |}).
  destruct (handler_path env event)
    as [tr r Hv | tr e Hv | tr ev cr e Hv _ | tr ev cr iid Hv _ _
        | tr tr1 ev cr iid e Hv _ _ He | tr tr1 ev cr iid ie item rt tok p msg Hv _ _ He];
    destruct (validation_calls _ _ _ _ Hv) as (c & Hpre & Hfull).
  - exists c, m0, tr, [], []. rewrite !app_nil_r.
    split_and!; [done | done | apply prefix_nil | by left | by intros [[] | []]].
  - exists c, m0, tr, [], []. rewrite !app_nil_r.
    split_and!; [done | done | apply prefix_nil | by left | by intros [[] | []]].
  - exists c, m0, tr, [], []. rewrite !app_nil_r.
    split_and!; [done | done | apply prefix_nil | by left | by intros [[] | []]].
  - exists c, m0, tr, [], [CallBoto3Client "config"].
    split_and!; [done | done | apply prefix_nil | by right; left | intros _; by eapply Hfull].
  - destruct (evaluation_calls _ _ _ _ _ _ He) as [mgr Hm].
    exists c, mgr, tr, tr1, []. rewrite !app_nil_r.
    split_and!; [done | done | done | by left | intros _; by eapply Hfull].
  - destruct (evaluation_calls _ _ _ _ _ _ He) as [mgr Hm].
    exists c, mgr, tr, tr1, [CallBoto3Client "config"; CallPutEvaluations [evaluation] tok].
    split_and!; [done | done | done | right; right; by eexists _, _ | intros _; by eapply Hfull].
Qed.

(** ** The mapping returned *)

Lemma validate_returns (env : Env) (event : dict) (tr : list call) (r : dict) :
  validate env event = (tr, Return r) →
  (tr = [] ∧ r = {[ "result" := PStr "error" ]}) ∨
  (tr = [] ∧ r = {[ "requirements_not_met" := PStr credentials_message ]}) ∨
  (∃ c, tr = resolver_calls c ∧ r = {[ "requirements_not_met" := PStr control_message ]}).
Proof.
  intros H. pose proof (validate_path env event) as Hp. rewrite H in Hp. cbn [fst snd] in Hp.
  inversion Hp; subst; [by left | by right; left | right; right; by eexists].
Qed.

(** X13.  Whenever the handler returns, the mapping is one of five:
    [{'result': 'error'}] or the credentials message under
    ['requirements_not_met'], both without any call; the control message
    under ['requirements_not_met'], after the three resolver calls; the empty
    mapping, after the Config client was built and nothing submitted; or,
    after a submission, ['result'] = ['failure'] or ['success'] with the
    response, together with ['annotation'] exactly when the evaluation
    submitted carries the same text as its annotation. *)
Theorem returned_mapping_shapes (env : Env) (event : dict) (calls : list call) (r : dict) :
  aws_config_rule_handler env event = (calls, ok r) →
  (calls = [] ∧ r = {[ "result" := PStr "error" ]}) ∨
  (calls = [] ∧ r = {[ "requirements_not_met" := PStr credentials_message ]}) ∨
  (∃ c, calls = resolver_calls c ∧
        r = {[ "requirements_not_met" := PStr control_message ]}) ∨
  (last calls = Some (CallBoto3Client "config") ∧ r = ∅) ∨
  (∃ evaluation token,
     last calls = Some (CallPutEvaluations [evaluation] token) ∧
     match Annotation evaluation, put_evaluations env [evaluation] token with
     | None, inl _ => r = {[ "result" := PStr "failure" ]}
     | None, inr response =>
         r = <["response" := response]> {[ "result" := PStr "success" ]}
     | Some annotation, inl _ =>
         r = <["result" := PStr "failure"]> {[ "annotation" := PStr annotation ]}
     | Some annotation, inr response =>
         r = <["response" := response]> (<["result" := PStr "success"]>
               {[ "annotation" := PStr annotation ]})
     end).
Proof.
  intros H. pose proof (handler_path env event) as Hp. rewrite H in Hp. cbn [fst snd] in Hp.
  inversion Hp as [tr r' Hv | | | tr ev cr iid Hv _ _ | |
                   tr tr1 ev cr iid ie item rt tok p msg Hv _ _ He]; subst.
  - destruct (validate_returns _ _ _ _ Hv) as [? | [? | ?]]; [by left | by right; left |].
    right. right. by left.
  - right. right. right. left. by rewrite last_snoc.
  - right. right. right. right.
    exists evaluation, tok. split; [by rewrite !last_app |].
    unfold evaluation, make_evaluation, reported_result, initial_result. cbn [Annotation].
    clear H Hp. destruct (Str.nonempty msg); by case_match.
Qed.

(** ** The evaluation submitted *)

(** The instance id is the [resourceId] of a configuration item whose
    [resourceType] is, case ignored, the EC2 instance type. *)
Lemma scope_filter_ec2 (ev : dict) (instance_id : pyval) :
  scope_filter ev = ok instance_id →
  truthy instance_id = true →
  ∃ invoking_event item resource_type,
    ev !! "invokingEvent" = Some invoking_event ∧
    py_getitem invoking_event "configurationItem" = ok item ∧
    py_getitem item "resourceType" = ok resource_type ∧
    py_lower resource_type = ok (Str.lower ec2_instance) ∧
    py_getitem item "resourceId" = ok instance_id.
Proof.
  unfold scope_filter. intros H Ht.
  assert (Hn : ∀ v, @ok pyval PNone = ok v → v = instance_id → False)
    by (intros v [= <-] <-; discriminate).
  destruct (ev !! "invokingEvent") as [invoking_event |] eqn:Ei; [| by edestruct Hn].
  destruct (py_contains invoking_event "configurationItem") as [e | []];
    [discriminate | | by edestruct Hn].
  cbn in H.
  destruct (py_getitem invoking_event "configurationItem") as [e | item] eqn:Ec;
    [discriminate |].
  cbn in H. unfold py_and in H.
  destruct (py_contains item "resourceType") as [e | []];
    [discriminate | | by edestruct Hn].
  cbn in H.
  destruct (py_getitem item "resourceType") as [e | resource_type] eqn:Er; [discriminate |].
  cbn in H.
  destruct (py_lower resource_type) as [e | t] eqn:El; [discriminate |].
  cbn in H.
  destruct (String.eqb_spec t (Str.lower ec2_instance)) as [-> | Hne]; [| by edestruct Hn].
  unfold get_or in H.
  destruct (py_contains item "resourceId") as [e | []]; [discriminate | | by edestruct Hn].
  cbn in H.
  by exists invoking_event, item, resource_type.
Qed.

Lemma prefix_of_manager_calls_no_submission (mgr : Manager) (tr : list call) :
  tr `prefix_of` manager_calls mgr → no_submission tr.
Proof.
  intros [k Hk]. assert (H : no_submission (tr ++ k)) by (rewrite <- Hk; by repeat constructor).
  by apply Forall_app in H as [H _].
Qed.

(** A submission found in a run is the one of the reporting step. *)
Lemma submission_inv (env : Env) (event : dict) (calls : list call) (out : result dict)
    (evaluations : list Evaluation) (token : pyval) :
  path env event calls out →
  In (CallPutEvaluations evaluations token) calls →
  ∃ tr tr1 ev credentials instance_id resource_type is_protected detailed_msg,
    validate env event = (tr, Normal (ev, credentials)) ∧
    scope_filter ev = ok instance_id ∧
    truthy instance_id = true ∧
    evaluation_path env ev credentials instance_id tr1 (Normal (is_protected, detailed_msg)) ∧
    event !! "resultToken" = Some token ∧
    (∃ invoking_event item,
       ev !! "invokingEvent" = Some invoking_event ∧
       py_getitem invoking_event "configurationItem" = ok item ∧
       py_getitem item "resourceType" = ok resource_type) ∧
    evaluations = [make_evaluation env resource_type instance_id
                     (compliance_type is_protected) detailed_msg] ∧
    calls = (tr ++ tr1 ++ [CallBoto3Client "config";
                           CallPutEvaluations evaluations token])%list ∧
    out = ok (reported_result (put_evaluations env evaluations token) detailed_msg).
Proof.
  assert (Hq : ∀ tr o, validate env event = (tr, o) →
                       ¬ In (CallPutEvaluations evaluations token) tr).
  { intros tr o Hv Hin. pose proof (validate_quiet env event) as Hq.
    unfold quiet, no_submission in Hq. rewrite Hv in Hq. cbn in Hq.
    rewrite Forall_forall in Hq.
    apply list_elem_of_In in Hin. by apply Hq in Hin. }
  assert (Hq1 : ∀ ev cr iid tr1 o, evaluation_path env ev cr iid tr1 o →
                                   ¬ In (CallPutEvaluations evaluations token) tr1).
  { intros ev cr iid tr1 o He Hin. destruct (evaluation_calls _ _ _ _ _ _ He) as [mgr Hm].
    apply prefix_of_manager_calls_no_submission in Hm. unfold no_submission in Hm.
    rewrite Forall_forall in Hm. apply list_elem_of_In in Hin. by apply Hm in Hin. }
  intros [tr r Hv | tr e Hv | tr ev cr e Hv _ | tr ev cr iid Hv _ _
          | tr tr1 ev cr iid e Hv _ _ He
          | tr tr1 ev cr iid ie item rt tok p msg Hv Hs Ht He Htok Hie Hitem Hrt] Hin.
  - by eapply Hq in Hin.
  - by eapply Hq in Hin.
  - by eapply Hq in Hin.
  - apply in_app_or in Hin as [Hin | [[=] | []]]. by eapply Hq in Hin.
  - apply in_app_or in Hin as [Hin | Hin]; [by eapply Hq in Hin | by eapply Hq1 in Hin].
  - apply in_app_or in Hin as [Hin | Hin]; [by eapply Hq in Hin |].
    apply in_app_or in Hin as [Hin | [[=] | [[= <- <-] | []]]]; [by eapply Hq1 in Hin |].
    exists tr, tr1, ev, cr, iid, rt, p, msg. split_and!; try done. by exists ie, item.
Qed.

(** X12.  Whatever the run, a submission it contains carries the result
    token of the event and exactly one evaluation; that evaluation is about
    the event's own configuration item: its resource type is the item's
    [resourceType], which is the EC2 instance type up to case, its resource
    id is the item's [resourceId], which is true as a condition; its
    compliance type is [COMPLIANT] or [NON_COMPLIANT] and its timestamp is
    the current time. *)
Theorem submission_is_about_the_event (env : Env) (event : dict) (calls : list call)
    (out : result dict) (evaluations : list Evaluation) (token : pyval) :
  aws_config_rule_handler env event = (calls, out) →
  In (CallPutEvaluations evaluations token) calls →
  event !! "resultToken" = Some token ∧
  ∃ evaluation ev invoking_event item,
    evaluations = [evaluation] ∧
    deserialize_blocks env event = ok ev ∧
    ev !! "invokingEvent" = Some invoking_event ∧
    py_getitem invoking_event "configurationItem" = ok item ∧
    py_getitem item "resourceType" = ok (ComplianceResourceType evaluation) ∧
    py_lower (ComplianceResourceType evaluation) = ok (Str.lower ec2_instance) ∧
    py_getitem item "resourceId" = ok (ComplianceResourceId evaluation) ∧
    truthy (ComplianceResourceId evaluation) = true ∧
    (ComplianceType evaluation = "COMPLIANT" ∨ ComplianceType evaluation = "NON_COMPLIANT") ∧
    OrderingTimestamp evaluation = datetime_now env.
Proof.
  intros H Hin. pose proof (handler_path env event) as Hp. rewrite H in Hp.
  destruct (submission_inv _ _ _ _ _ _ Hp Hin)
    as (tr & tr1 & ev & cr & iid & rt & p & msg & Hv & Hs & Ht & _ & Htok & Hitem & -> & _).
  split; [done |].
  destruct (scope_filter_ec2 _ _ Hs Ht) as (ie & item & rt' & Hie & Hci & Hrt & Hl & Hid).
  destruct Hitem as (ie' & item' & Hie' & Hci' & Hrt').
  assert (ie' = ie) as -> by congruence.
  assert (item' = item) as -> by (rewrite Hci in Hci'; by injection Hci').
  assert (rt' = rt) as -> by (rewrite Hrt in Hrt'; by injection Hrt').
  apply validate_normal in Hv as (_ & Hd & _).
  eexists _, ev, ie, item. split_and!; try done.
  cbn. destruct p; [by left | by right].
Qed.



Lemma resolver_calls_no_manager (c : Credentials) (tr : list call) (x : call) :
  tr `prefix_of` resolver_calls c → In x tr → is_manager_call x = false.
Proof.
  intros [k Hk] Hin.
  assert (H : In x (resolver_calls c)) by (rewrite Hk; apply in_or_app; by left).
  cbn in H. by destruct H as [<- | [<- | [<- | []]]].
Qed.

(** X15.  When the handler returns a mapping, the session it may have used
    is closed: if the run fetched the inventory through a manager, it also
    called [sign_out] on that manager, and [sign_out] answered. *)
Theorem session_closed_when_handler_returns (env : Env) (event : dict)
    (calls : list call) (r : dict) (mgr : Manager) :
  aws_config_rule_handler env event = (calls, ok r) →
  In (CallComputersGet mgr) calls →
  In (CallSignOut mgr) calls ∧ sign_out env mgr = ok tt.
Proof.
  intros H Hin. pose proof (handler_path env event) as Hp. rewrite H in Hp. cbn [fst snd] in Hp.
  assert (Hv : ∀ tr o, validate env event = (tr, o) → ¬ In (CallComputersGet mgr) tr).
  { intros tr o Hv Hin'. destruct (validation_calls _ _ _ _ Hv) as (c & Hpre & _).
    by pose proof (resolver_calls_no_manager _ _ _ Hpre Hin'). }
  inversion Hp as [tr r' Hval | | | tr ev cr iid Hval _ _ | |
                   tr tr1 ev cr iid ie item rt tok p msg Hval _ _ He]; subst.
  - by eapply Hv in Hin.
  - apply in_app_or in Hin as [Hin | [[=] | []]]. by eapply Hv in Hin.
  - apply in_app_or in Hin as [Hin | Hin]; [by eapply Hv in Hin |].
    apply in_app_or in Hin as [Hin | [[=] | [[=] | []]]].
    inversion He as [ | tr' Hcon _ | | | mgr' key target computers st Hcon _ _ _ _ Ho]; subst.
    + destruct (connect_cases env ev cr) as [[e H'] | [H' | [[m H'] | [m H']]]];
        rewrite H' in Hcon; try discriminate; injection Hcon as <-.
      * destruct Hin.
      * by destruct Hin as [[=] | []].
    + destruct Hin as [[=] | [[=] | [[= ->] | [[=] | []]]]].
      split; [| done]. apply in_or_app. right. apply in_or_app. left. cbn. tauto.
Qed.

(** ** What the handler reads of the event *)

Section SameInputs.
Context (env : Env) (event1 event2 : dict).
Hypothesis Hsame : same_inputs event1 event2.

Lemma required_keys_same : required_keys event1 = required_keys event2.
Proof.
  destruct Hsame as (H1 & H2 & H3 & H4). unfold required_keys.
  rewrite H4. unfold has. by rewrite H1, H2, H3.
Qed.

Lemma rule_parameters_same : rule_parameters env event1 = rule_parameters env event2.
Proof. destruct Hsame as (_ & H & _). unfold rule_parameters. by rewrite H. Qed.

Lemma scope_filter_same : scope_filter event1 = scope_filter event2.
Proof. destruct Hsame as (H & _). unfold scope_filter. by rewrite H. Qed.

Lemma py_getitem_same (key : string) :
  key = "invokingEvent" ∨ key = "ruleParameters" ∨ key = "resultToken" →
  py_getitem (PDict event1) key = py_getitem (PDict event2) key.
Proof.
  destruct Hsame as (H1 & H2 & H3 & _).
  intros [-> | [-> | ->]]; cbn; by rewrite ?H1, ?H2, ?H3.
Qed.

Lemma connect_same (credentials : option (pyval * pyval)) :
  connect env event1 credentials = connect env event2 credentials.
Proof. unfold connect. rewrite (py_getitem_same "ruleParameters"); [done | tauto]. Qed.

Lemma evaluate_same (credentials : option (pyval * pyval)) (instance_id : pyval) :
  evaluate env event1 credentials instance_id = evaluate env event2 credentials instance_id.
Proof.
  unfold evaluate, inspect, control_key_of. rewrite connect_same.
  rewrite (py_getitem_same "ruleParameters"); [done | tauto].
Qed.

Lemma report_same (instance_id : pyval) (is_protected : bool) (detailed_msg : string) :
  report env event1 instance_id is_protected detailed_msg =
  report env event2 instance_id is_protected detailed_msg.
Proof.
  unfold report. rewrite (py_getitem_same "invokingEvent") by tauto.
  by rewrite (py_getitem_same "resultToken") by tauto.
Qed.

Lemma evaluate_and_report_same (credentials : option (pyval * pyval)) :
  evaluate_and_report env event1 credentials = evaluate_and_report env event2 credentials.
Proof.
  unfold evaluate_and_report. rewrite scope_filter_same.
  destruct (scope_filter event2) as [e | iid]; [done |].
  rewrite !bind_pure_ok, evaluate_same.
  destruct (if truthy iid then _ else _) as [tr [[p msg] | r | e]]; [| done..].
  rewrite !bind_normal. by rewrite report_same.
Qed.

(** Deserializing one block of two such events fails on both or gives two
    such events. *)
Lemma deserialize_same (key : string) :
  key = "invokingEvent" ∨ key = "ruleParameters" →
  match deserialize env key event1, deserialize env key event2 with
  | inl e1, inl e2 => e1 = e2
  | inr ev1, inr ev2 => same_inputs ev1 ev2
  | _, _ => False
  end.
Proof.
  intros Hkey.
  assert (Hl : event1 !! key = event2 !! key).
  { destruct Hsame as (H1 & H2 & _). by destruct Hkey as [-> | ->]. }
  unfold deserialize. rewrite Hl. destruct (event2 !! key) as [v |]; [| done].
  destruct (is_dict v); cbn; [done |].
  destruct (py_json_loads env v) as [e | v']; [done |]. cbn.
  destruct Hsame as (H1 & H2 & H3 & H4). unfold same_inputs, has.
  destruct Hkey as [-> | ->]; simplify_map_eq; by rewrite ?H1, ?H2, ?H3; split_and!.
Qed.

End SameInputs.

Lemma deserialize_blocks_same (env : Env) (event1 event2 : dict) :
  same_inputs event1 event2 →
  match deserialize_blocks env event1, deserialize_blocks env event2 with
  | inl e1, inl e2 => e1 = e2
  | inr ev1, inr ev2 => same_inputs ev1 ev2
  | _, _ => False
  end.
Proof.
  intros Hsame. unfold deserialize_blocks.
  pose proof (deserialize_same env _ _ Hsame "ruleParameters" ltac:(tauto)) as H.
  destruct (deserialize env "ruleParameters" event1) as [e1 | ev1],
    (deserialize env "ruleParameters" event2) as [e2 | ev2]; try done.
  cbn. by apply deserialize_same; [| left].
Qed.

(** X1.  The handler reads of the event only the blocks [invokingEvent],
    [ruleParameters] and [resultToken], and whether [eventLeftScope] is
    there: two events that agree on these give the same calls and the same
    result.  In particular the value of [eventLeftScope] and any other key
    are ignored. *)
Theorem handler_ignores_the_rest_of_the_event (env : Env) (event1 event2 : dict) :
  same_inputs event1 event2 →
  aws_config_rule_handler env event1 = aws_config_rule_handler env event2.
Proof.
  intros Hsame. unfold aws_config_rule_handler.
  pose proof (required_keys_same _ _ Hsame) as Hk.
  destruct (required_keys_cases event1) as [[_ H1] | H1].
  { unfold validate. by rewrite <- Hk, H1. }
  assert (H2 : required_keys event2 = ([], Normal tt)) by congruence.
  pose proof (deserialize_blocks_same env _ _ Hsame) as Hd.
  destruct (deserialize_blocks env event1) as [e1 | ev1] eqn:Hd1,
    (deserialize_blocks env event2) as [e2 | ev2] eqn:Hd2; try done.
  { unfold validate. rewrite H1, H2, !bind_normal, Hd1, Hd2. by subst. }
  rewrite (validate_unfold _ _ _ H1 Hd1), (validate_unfold _ _ _ H2 Hd2).
  rewrite (rule_parameters_same env _ _ Hd).
  destruct (rule_parameters env ev2) as [tr [c | r | e]]; [| done..].
  rewrite !bind_normal. cbn. by rewrite (evaluate_and_report_same env _ _ Hd).
Qed.

Lemma handler_ignores_the_rest_of_the_event_witness :
  aws_config_rule_handler (Sample.env (Sample.one_host "On")) (Sample.event "firewall")
  = aws_config_rule_handler (Sample.env (Sample.one_host "On")) Scenario.noisy_event.
Proof.
  apply (handler_ignores_the_rest_of_the_event (Sample.env (Sample.one_host "On"))
           (Sample.event "firewall") Scenario.noisy_event).
  split_and!; reflexivity.
Defined.

(** ** Blocks given as text *)

(** Two events with the same keys whose blocks deserialize alike are
    handled alike. *)
Lemma handler_same_after_deserializing (env : Env) (event1 event2 : dict) :
  required_keys event1 = required_keys event2 →
  match deserialize_blocks env event1, deserialize_blocks env event2 with
  | inl e1, inl e2 => e1 = e2
  | inr ev1, inr ev2 => same_inputs ev1 ev2
  | _, _ => False
  end →
  aws_config_rule_handler env event1 = aws_config_rule_handler env event2.
Proof.
  intros Hk Hd. unfold aws_config_rule_handler.
  destruct (required_keys_cases event1) as [[_ H1] | H1].
  { unfold validate. by rewrite <- Hk, H1. }
  assert (H2 : required_keys event2 = ([], Normal tt)) by congruence.
  destruct (deserialize_blocks env event1) as [e1 | ev1] eqn:Hd1,
    (deserialize_blocks env event2) as [e2 | ev2] eqn:Hd2; try done.
  { unfold validate. rewrite H1, H2, !bind_normal, Hd1, Hd2. by subst. }
  rewrite (validate_unfold _ _ _ H1 Hd1), (validate_unfold _ _ _ H2 Hd2).
  rewrite (rule_parameters_same env _ _ Hd).
  destruct (rule_parameters env ev2) as [tr [c | r | e]]; [| done..].
  rewrite !bind_normal. cbn. by rewrite (evaluate_and_report_same env _ _ Hd).
Qed.

Lemma same_inputs_refl (event : dict) : same_inputs event event.
Proof. by split_and!. Qed.

Lemma has_insert_present (event : dict) (key key' : string) (v w : pyval) :
  event !! key = Some v → has (<[key := w]> event) key' = has event key'.
Proof.
  intros H. unfold has. destruct (decide (key = key')) as [<- | Hne].
  - rewrite lookup_insert_eq, H. by rewrite !bool_decide_eq_true_2.
  - by rewrite lookup_insert_ne.
Qed.

Lemma deserialize_text (env : Env) (key : string) (event : dict) (s : string) (v : pyval) :
  event !! key = Some (PStr s) → json_loads env s = ok v →
  deserialize env key event = ok (<[key := v]> event).
Proof. intros H Hj. unfold deserialize. rewrite H. cbn. by rewrite Hj. Qed.

Lemma deserialize_dict (env : Env) (key : string) (event d : dict) :
  event !! key = Some (PDict d) → deserialize env key event = ok event.
Proof. intros H. unfold deserialize. by rewrite H. Qed.

(** Deserializing one block commutes with replacing another. *)
Lemma deserialize_insert_ne (env : Env) (key key' : string) (event : dict) (w : pyval) :
  key ≠ key' →
  deserialize env key (<[key' := w]> event) =
  match deserialize env key event with
  | inl e => inl e
  | inr ev => inr (<[key' := w]> ev)
  end.
Proof.
  intros Hne. unfold deserialize. rewrite lookup_insert_ne by done.
  destruct (event !! key) as [v |]; [| done].
  destruct (is_dict v); cbn; [done |].
  destruct (py_json_loads env v) as [e | v']; [done |]. cbn.
  by rewrite insert_insert_ne.
Qed.

(** X2.  A block given as text that decodes to a mapping is handled as that
    mapping: replacing the text of [ruleParameters] or of [invokingEvent] by
    the mapping it decodes to changes neither the calls nor the result. *)
Theorem text_block_is_handled_as_its_mapping (env : Env) (event : dict) (key s : string)
    (d : dict) :
  key = "ruleParameters" ∨ key = "invokingEvent" →
  event !! key = Some (PStr s) →
  json_loads env s = ok (PDict d) →
  aws_config_rule_handler env event = aws_config_rule_handler env (<[key := PDict d]> event).
Proof.
  intros Hkey Hs Hj. apply handler_same_after_deserializing.
  - unfold required_keys. by rewrite !(has_insert_present _ _ _ _ _ Hs).
  - unfold deserialize_blocks. destruct Hkey as [-> | ->].
    + rewrite (deserialize_text _ _ _ _ _ Hs Hj).
      rewrite (deserialize_dict env _ (<[_ := _]> event) d) by apply lookup_insert_eq.
      cbn. destruct (deserialize env "invokingEvent" _); [done | apply same_inputs_refl].
    + rewrite deserialize_insert_ne by done.
      destruct (deserialize env "ruleParameters" event) as [e | ev1] eqn:E1; [done |].
      cbn.
      assert (Hs1 : ev1 !! "invokingEvent" = Some (PStr s)).
      { by rewrite (deserialize_other env "ruleParameters" "invokingEvent" _ _ ltac:(done) E1). }
      rewrite (deserialize_text _ _ _ _ _ Hs1 Hj).
      rewrite (deserialize_dict env _ (<[_ := _]> ev1) d) by apply lookup_insert_eq.
      apply same_inputs_refl.
Qed.

Lemma text_block_is_handled_as_its_mapping_witness :
  aws_config_rule_handler
    (Scenario.env_decoding "{...}" (PDict (Sample.rule_parameters "firewall"))
       (Sample.one_host "On"))
    (Scenario.event_with_text_parameters "{...}")
  = aws_config_rule_handler
      (Scenario.env_decoding "{...}" (PDict (Sample.rule_parameters "firewall"))
         (Sample.one_host "On"))
      (<["ruleParameters" := PDict (Sample.rule_parameters "firewall")]>
         (Scenario.event_with_text_parameters "{...}")).
Proof.
  apply (text_block_is_handled_as_its_mapping
           (Scenario.env_decoding "{...}" (PDict (Sample.rule_parameters "firewall"))
              (Sample.one_host "On"))
           (Scenario.event_with_text_parameters "{...}") "ruleParameters" "{...}"
           (Sample.rule_parameters "firewall"));
    [by left | reflexivity | reflexivity].
Defined.

(** The run stops where validation stops. *)
Lemma handler_validation_raises (env : Env) (event : dict) (tr : list call) (e : exn) :
  validate env event = (tr, Raise e) → aws_config_rule_handler env event = (tr, raise e).
Proof. intros H. unfold aws_config_rule_handler. by rewrite H. Qed.

Lemma validate_block_raises (env : Env) (event : dict) (e : exn) :
  required_keys event = ([], Normal tt) →
  deserialize_blocks env event = raise e →
  validate env event = ([], Raise e).
Proof. intros Hk Hd. unfold validate. by rewrite Hk, bind_normal, Hd. Qed.

Lemma deserialize_raises (env : Env) (key : string) (event : dict) (v : pyval) (e : exn) :
  event !! key = Some v → is_dict v = false → py_json_loads env v = raise e →
  deserialize env key event = raise e.
Proof. intros H Hd Hj. unfold deserialize. by rewrite H, Hd, Hj. Qed.

(** X3.  A block that is not a mapping and that [json.loads] refuses makes
    the handler raise before it calls any collaborator: the decoder's
    exception for text it cannot decode, [TypeError] for a value that is
    not text.  For [ruleParameters] the exception raised is that one; for
    [invokingEvent] it is that one unless [ruleParameters] failed first. *)
Theorem undecodable_block_raises (env : Env) (event : dict) (key : string) (v : pyval)
    (e : exn) :
  required_keys event = ([], Normal tt) →
  key = "ruleParameters" ∨ key = "invokingEvent" →
  event !! key = Some v →
  is_dict v = false →
  py_json_loads env v = raise e →
  ∃ e', aws_config_rule_handler env event = ([], raise e') ∧
        (key = "ruleParameters" ∨ (∃ d, event !! "ruleParameters" = Some (PDict d)) → e' = e).
Proof.
  intros Hk Hkey Hv Hd Hj.
  destruct Hkey as [-> | ->].
  - exists e. split; [| done].
    apply handler_validation_raises, validate_block_raises; [done |].
    unfold deserialize_blocks. by rewrite (deserialize_raises _ _ _ _ _ Hv Hd Hj).
  - destruct (deserialize env "ruleParameters" event) as [e1 | ev1] eqn:E1.
    + exists e1. split.
      * apply handler_validation_raises, validate_block_raises; [done |].
        unfold deserialize_blocks. by rewrite E1.
      * intros [[=] | [d Hrp]]. by rewrite (deserialize_dict _ _ _ _ Hrp) in E1.
    + exists e. split; [| done].
      apply handler_validation_raises, validate_block_raises; [done |].
      unfold deserialize_blocks. rewrite E1. cbn.
      apply (deserialize_raises _ _ _ v); [| done..].
      by rewrite (deserialize_other env "ruleParameters" "invokingEvent" _ _ ltac:(done) E1).
Qed.

Lemma undecodable_block_raises_witness :
  ∃ e', aws_config_rule_handler (Sample.env []) (Scenario.event_with_parameters (PInt 5))
        = ([], raise e') ∧
        ("ruleParameters" = "ruleParameters" ∨
         (∃ d, Scenario.event_with_parameters (PInt 5) !! "ruleParameters" = Some (PDict d)) →
         e' = TypeError).
Proof.
  apply (undecodable_block_raises (Sample.env []) (Scenario.event_with_parameters (PInt 5))
           "ruleParameters" (PInt 5) TypeError);
    [reflexivity | by left | reflexivity | reflexivity | reflexivity].
Defined.

(** ** The credential keys *)

Lemma credentials_missing_dict (rp : dict) :
  credentials_missing (PDict rp) =
  ok (negb (has rp "dsUsernameKey") && negb (has rp "dsPasswordKey") &&
      (negb (has rp "dsTenant") || negb (has rp "dsHostname"))).
Proof.
  unfold credentials_missing, py_and, py_or, py_not. rewrite !py_contains_dict. cbn.
  by destruct (has rp "dsUsernameKey"), (has rp "dsPasswordKey"), (has rp "dsTenant").
Qed.

(** X4.  Rule parameters that are not a mapping once deserialized (text
    that decodes to a list, a number, a text, ...) never get past the
    credential check: the handler returns the credentials message or raises
    [TypeError], and calls no collaborator. *)
Theorem non_mapping_parameters_are_not_evaluated (env : Env) (event ev : dict) (rp : pyval) :
  required_keys event = ([], Normal tt) →
  deserialize_blocks env event = ok ev →
  ev !! "ruleParameters" = Some rp →
  is_dict rp = false →
  aws_config_rule_handler env event
  = ([], ok {[ "requirements_not_met" := PStr credentials_message ]}) ∨
  aws_config_rule_handler env event = ([], raise TypeError).
Proof.
  intros Hk Hd Hrp Hnd.
  assert (H : resolve_credentials env rp
              = ([], Return {[ "requirements_not_met" := PStr credentials_message ]}) ∨
              resolve_credentials env rp = ([], Raise TypeError)).
  { unfold resolve_credentials.
    destruct rp as [| b | z | f | s | l | d]; try discriminate; try (by right).
    - destruct (credentials_missing (PStr s)) as [e | []] eqn:E; [| by left | by right].
      unfold credentials_missing, py_and, py_or, py_not in E. cbn in E.
      by repeat (case_match; cbn in E; try discriminate).
    - destruct (credentials_missing (PList l)) as [e | []] eqn:E; [| by left | by right].
      unfold credentials_missing, py_and, py_or, py_not in E. cbn in E.
      by repeat (case_match; cbn in E; try discriminate). }
  unfold aws_config_rule_handler. rewrite (validate_unfold _ _ _ Hk Hd).
  unfold rule_parameters. rewrite Hrp. destruct H as [-> | ->]; [by left | by right].
Qed.

Lemma non_mapping_parameters_are_not_evaluated_witness :
  let env := Scenario.env_decoding "[1, 2]" (PList [PInt 1; PInt 2]) [] in
  aws_config_rule_handler env (Scenario.event_with_text_parameters "[1, 2]")
  = ([], ok {[ "requirements_not_met" := PStr credentials_message ]}) ∨
  aws_config_rule_handler env (Scenario.event_with_text_parameters "[1, 2]")
  = ([], raise TypeError).
Proof.
  intros env.
  apply (non_mapping_parameters_are_not_evaluated env
           (Scenario.event_with_text_parameters "[1, 2]")
           (<["ruleParameters" := PList [PInt 1; PInt 2]]>
              (Scenario.event_with_text_parameters "[1, 2]"))
           (PList [PInt 1; PInt 2]));
    reflexivity.
Defined.

(** A run starts with the calls of its validation. *)
Lemma handler_extends_validation (env : Env) (event : dict) (tr : list call)
    (o : outcome (dict * option (pyval * pyval))) :
  validate env event = (tr, o) →
  ∃ rest, (aws_config_rule_handler env event).1 = (tr ++ rest)%list ∧
          ∀ e, o = Raise e → (aws_config_rule_handler env event).2 = raise e.
Proof.
  intros H. unfold aws_config_rule_handler. rewrite H.
  destruct o as [[ev c] | r | e].
  - rewrite bind_normal. destruct (evaluate_and_report env ev c) as [tr' o'].
    exists tr'. split; [by destruct o' | done].
  - exists []. by rewrite app_nil_r.
  - exists []. rewrite app_nil_r. split; [done |]. by intros e' [= <-].
Qed.

(** X5.  For rule parameters that are a mapping, the handler answers with
    the credentials message, before any call, exactly when [dsUsernameKey]
    and [dsPasswordKey] are both absent and [dsTenant] or [dsHostname] is
    absent too. *)
Theorem credentials_message_iff (env : Env) (event ev rp : dict) :
  required_keys event = ([], Normal tt) →
  deserialize_blocks env event = ok ev →
  ev !! "ruleParameters" = Some (PDict rp) →
  aws_config_rule_handler env event
  = ([], ok {[ "requirements_not_met" := PStr credentials_message ]})
  ↔ rp !! "dsUsernameKey" = None ∧ rp !! "dsPasswordKey" = None ∧
    (rp !! "dsTenant" = None ∨ rp !! "dsHostname" = None).
Proof.
  intros Hk Hd Hrp. rewrite <- !has_false. split.
  - intros H.
    destruct (negb (has rp "dsUsernameKey") && negb (has rp "dsPasswordKey") &&
              (negb (has rp "dsTenant") || negb (has rp "dsHostname"))) eqn:E.
    { apply andb_true_iff in E as [E Ht]. apply andb_true_iff in E as [Hu Hp].
      apply negb_true_iff in Hu, Hp. apply orb_true_iff in Ht.
      by rewrite !negb_true_iff in Ht. }
    exfalso.
    pose proof (validate_path env event) as Hp.
    destruct (validate env event) as [tr o] eqn:Hval. cbn [fst snd] in Hp.
    destruct (handler_extends_validation _ _ _ _ Hval) as (rest & Hrest & Hraise).
    rewrite H in Hrest, Hraise. cbn [fst snd] in Hrest, Hraise.
    symmetry in Hrest. apply app_eq_nil in Hrest as [-> _].
    inversion Hp as [Hm | e _ _ | ev' rp' e _ _ _ _ | ev' rp' _ Hd' Hrp' Hmiss
                     | ev' rp' e _ _ _ _ _ | ev' rp' c tr' e _ _ _ _ _ _ | | | ];
      subst; try (by specialize (Hraise _ eq_refl)).
    + rewrite (required_keys_missing _ Hm) in Hk. discriminate.
    + rewrite Hd in Hd'. injection Hd' as <-. rewrite Hrp in Hrp'. injection Hrp' as <-.
      rewrite credentials_missing_dict, E in Hmiss. discriminate.
  - intros (Hu & Hp & Ht). apply handler_rejected.
    rewrite (validate_unfold _ _ _ Hk Hd). unfold rule_parameters. rewrite Hrp.
    unfold resolve_credentials. rewrite credentials_missing_dict, Hu, Hp.
    by destruct Ht as [-> | ->]; [| rewrite orb_true_r].
Qed.

Lemma credentials_message_iff_witness :
  aws_config_rule_handler (Sample.env [])
    (Sample.event_of (<["dsHostname" := PStr "dsm.example.com"]> ∅)
       (Sample.item "AWS::EC2::Instance"))
  = ([], ok {[ "requirements_not_met" := PStr credentials_message ]})
  ↔ (<["dsHostname" := PStr "dsm.example.com"]> ∅ : dict) !! "dsUsernameKey" = None ∧
    (<["dsHostname" := PStr "dsm.example.com"]> ∅ : dict) !! "dsPasswordKey" = None ∧
    ((<["dsHostname" := PStr "dsm.example.com"]> ∅ : dict) !! "dsTenant" = None ∨
     (<["dsHostname" := PStr "dsm.example.com"]> ∅ : dict) !! "dsHostname" = None).
Proof.
  apply (credentials_message_iff (Sample.env [])
           (Sample.event_of (<["dsHostname" := PStr "dsm.example.com"]> ∅)
              (Sample.item "AWS::EC2::Instance"))
           (Sample.event_of (<["dsHostname" := PStr "dsm.example.com"]> ∅)
              (Sample.item "AWS::EC2::Instance"))
           (<["dsHostname" := PStr "dsm.example.com"]> ∅));
    reflexivity.
Defined.

(** X6.  An exception of the credentials resolver (its constructor,
    [get_username] or [get_password]) is not caught: the handler raises it,
    having called the resolver only. *)
Theorem resolver_exception_propagates (env : Env) (event ev rp : dict)
    (c : Credentials) (e : exn) :
  required_keys event = ([], Normal tt) →
  deserialize_blocks env event = ok ev →
  ev !! "ruleParameters" = Some (PDict rp) →
  rp !! "dsUsernameKey" = Some (username_key c) →
  rp !! "dsPasswordKey" = Some (password_key c) →
  Credentials_init env c = raise e ∨
  (Credentials_init env c = ok tt ∧ get_username env c = raise e) ∨
  (Credentials_init env c = ok tt ∧ (∃ u, get_username env c = ok u) ∧
   get_password env c = raise e) →
  ∃ calls, aws_config_rule_handler env event = (calls, raise e) ∧
           calls ≠ [] ∧
           calls `prefix_of` resolver_calls c.
Proof.
  intros Hk Hd Hrp Hu Hp Hfail.
  assert (Hc : c = {| username_key := username_key c; password_key := password_key c |})
    by by destruct c.
  assert (∃ calls, validate env event = (calls, Raise e) ∧ calls ≠ [] ∧
                   calls `prefix_of` resolver_calls c) as (calls & Hv & Hne & Hpre).
  { rewrite (validate_unfold _ _ _ Hk Hd). unfold rule_parameters. rewrite Hrp.
    unfold resolve_credentials.
    rewrite credentials_missing_dict, (has_Some _ _ _ Hu), bind_pure_ok.
    cbn [negb andb]. rewrite (py_getitem_dict _ _ _ Hu), (py_getitem_dict _ _ _ Hp).
    rewrite !bind_pure_ok. cbv zeta. rewrite <- Hc.
    destruct Hfail as [H1 | [[H1 H2] | (H1 & [u H2] & H3)]].
    - rewrite H1. exists [CallCredentials c]. split_and!; [done | done | by eexists [_; _]].
    - rewrite H1, H2. exists [CallCredentials c; CallGetUsername c].
      split_and!; [done | done | by eexists [_]].
    - rewrite H1, H2, H3. exists (resolver_calls c). by split_and!. }
  exists calls. split; [by apply handler_validation_raises | done].
Qed.

Lemma resolver_exception_propagates_witness :
  let env := Scenario.world (ok tt) (raise (Error "no such parameter")) (ok (PStr "secret"))
               (ok tt) (ok tt) (ok []) (ok tt) (ok (PDict ∅)) in
  ∃ calls, aws_config_rule_handler env (Sample.event "firewall")
           = (calls, raise (Error "no such parameter")) ∧
           calls ≠ [] ∧
           calls `prefix_of` resolver_calls Sample.credentials.
Proof.
  intros env.
  apply (resolver_exception_propagates env (Sample.event "firewall") (Sample.event "firewall")
           (Sample.rule_parameters "firewall") Sample.credentials
           (Error "no such parameter"));
    [reflexivity | reflexivity | reflexivity | reflexivity | reflexivity |].
  right. left. split; reflexivity.
Defined.

(** ** The connection to the manager *)

Lemma get_or_dict (d : dict) (key : string) (default_value : pyval) :
  get_or (PDict d) key default_value = ok (default default_value (d !! key)).
Proof.
  unfold get_or, py_contains, py_getitem, has.
  by destruct (d !! key) as [v |].
Qed.

(** Lines 73-83 for rule parameters that are a mapping. *)
Lemma connect_dict (env : Env) (ev rp : dict) (credentials : option (pyval * pyval)) :
  ev !! "ruleParameters" = Some (PDict rp) →
  connect env ev credentials =
  match ssl_flag_of rp with
  | inl e => ([], Raise e)
  | inr flag =>
      authenticate env credentials (default PNone (rp !! "dsTenant"))
        (default PNone (rp !! "dsHostname")) (default (PInt 443) (rp !! "dsPort")) flag
  end.
Proof.
  intros Hrp. unfold connect.
  rewrite (py_getitem_dict _ _ _ Hrp), bind_pure_ok, !get_or_dict, !bind_pure_ok.
  rewrite py_contains_dict. unfold ssl_flag_of, has.
  destruct (rp !! "dsIgnoreSslValidation") as [v |] eqn:E; cbn.
  - rewrite E. cbn. destruct (strtobool v); [done |]. by rewrite bind_pure_ok.
  - by destruct (authenticate _ _ _ _ _ _).
Qed.

Lemma strtobool_raises (v : pyval) (e : exn) :
  strtobool v = raise e →
  ((∀ s, v ≠ PStr s) ∧ e = AttributeError) ∨ ((∃ s, v = PStr s) ∧ e = ValueError).
Proof.
  unfold strtobool. destruct v as [| | | | s | |]; cbn;
    try (intros [= <-]; by left).
  repeat case_match; try discriminate. intros [= <-]. right. by split; [eexists |].
Qed.

Lemma strtobool_ok (v flag : pyval) :
  strtobool v = ok flag → flag = PInt 0 ∨ flag = PInt 1.
Proof.
  unfold strtobool. destruct v as [| | | | s | |]; cbn; try discriminate.
  repeat case_match; try discriminate; intros [= <-]; tauto.
Qed.

(** X7.  A [dsIgnoreSslValidation] that [strtobool] refuses (a text that is
    none of its truth words, or a value that is not text) makes the handler
    raise, [ValueError] or [AttributeError], once an instance id is at hand:
    the exception is raised outside the [try] block, before the manager is
    built, and nothing is submitted. *)
Theorem bad_ssl_flag_raises (env : Env) (event ev rp : dict) (tr : list call)
    (credentials : option (pyval * pyval)) (instance_id v : pyval) (e : exn) :
  validate env event = (tr, Normal (ev, credentials)) →
  scope_filter ev = ok instance_id →
  truthy instance_id = true →
  ev !! "ruleParameters" = Some (PDict rp) →
  rp !! "dsIgnoreSslValidation" = Some v →
  strtobool v = raise e →
  aws_config_rule_handler env event = (tr, raise e) ∧
  Forall (λ c, is_credentials_call c = true) tr ∧
  (e = ValueError ∨ e = AttributeError).
Proof.
  intros Hv Hs Ht Hrp Hflag Hstr. split_and!.
  - rewrite (handler_validated _ _ _ _ _ Hv). unfold evaluate_and_report.
    rewrite Hs, bind_pure_ok, Ht. unfold evaluate.
    rewrite (connect_dict _ _ _ _ Hrp). unfold ssl_flag_of. rewrite Hflag, Hstr.
    cbn. by rewrite app_nil_r.
  - destruct (validation_calls _ _ _ _ Hv) as (c & _ & Hfull).
    rewrite (Hfull _ eq_refl). by repeat constructor.
  - destruct (strtobool_raises _ _ Hstr) as [[_ ->] | [_ ->]]; [by right | by left].
Qed.

Lemma bad_ssl_flag_raises_witness :
  aws_config_rule_handler (Sample.env (Sample.one_host "On"))
    (Scenario.event_with_parameter "dsIgnoreSslValidation" (PStr "maybe"))
  = (Sample.credential_calls, raise ValueError) ∧
  Forall (λ c, is_credentials_call c = true) Sample.credential_calls ∧
  (ValueError = ValueError ∨ ValueError = AttributeError).
Proof.
  apply (bad_ssl_flag_raises (Sample.env (Sample.one_host "On"))
           (Scenario.event_with_parameter "dsIgnoreSslValidation" (PStr "maybe"))
           (Scenario.event_with_parameter "dsIgnoreSslValidation" (PStr "maybe"))
           (<["dsIgnoreSslValidation" := PStr "maybe"]> (Sample.rule_parameters "firewall"))
           Sample.credential_calls (Some (PStr "admin", PStr "secret")) (PStr "i-0abc")
           (PStr "maybe") ValueError);
    reflexivity.
Defined.

(** The only manager the sign-in block builds is the one of its
    arguments. *)
Lemma authenticate_manager (env : Env) (ds_username ds_password : pyval)
    (ds_tenant ds_hostname ds_port flag : pyval) (m : Manager) :
  In (CallManager m)
     (authenticate env (Some (ds_username, ds_password)) ds_tenant ds_hostname ds_port flag).1 →
  m = {| username := ds_username; password := ds_password; tenant := ds_tenant;
         hostname := ds_hostname; port := ds_port; ignore_ssl_validation := flag |}.
Proof.
  unfold authenticate. destruct (Manager_init env _) as [e | []]; cbn.
  - by intros [[= <-] | []].
  - destruct (sign_in env _) as [e | []]; cbn; by intros [[= <-] | [[=] | []]].
Qed.

(** A manager found in a run was built by the sign-in block of a validated
    event. *)
Lemma manager_call_inv (env : Env) (event : dict) (calls : list call) (out : result dict)
    (m : Manager) :
  path env event calls out →
  In (CallManager m) calls →
  ∃ tr ev credentials,
    validate env event = (tr, Normal (ev, credentials)) ∧
    In (CallManager m) (connect env ev credentials).1.
Proof.
  assert (Hq : ∀ tr o, validate env event = (tr, o) → ¬ In (CallManager m) tr).
  { intros tr o Hv Hin. destruct (validation_calls _ _ _ _ Hv) as (c & Hpre & _).
    by pose proof (resolver_calls_no_manager _ _ _ Hpre Hin). }
  assert (He : ∀ ev cr iid tr1 o, evaluation_path env ev cr iid tr1 o →
                                  In (CallManager m) tr1 →
                                  In (CallManager m) (connect env ev cr).1).
  { intros ev cr iid tr1 o Hp Hin.
    destruct Hp as [e H | tr' H _ | mgr tr' e H [-> | ->] | mgr e H _
                    | mgr key target inv st H _ _ _ _ _]; rewrite H; cbn in *;
      intuition discriminate. }
  intros [tr r Hv | tr e Hv | tr ev cr e Hv _ | tr ev cr iid Hv _ _
          | tr tr1 ev cr iid e Hv _ _ Hp
          | tr tr1 ev cr iid ie item rt tok p msg Hv _ _ Hp] Hin.
  - by eapply Hq in Hin.
  - by eapply Hq in Hin.
  - by eapply Hq in Hin.
  - apply in_app_or in Hin as [Hin | [[=] | []]]. by eapply Hq in Hin.
  - apply in_app_or in Hin as [Hin | Hin]; [by eapply Hq in Hin |].
    exists tr, ev, cr. split; [done | by eapply He].
  - apply in_app_or in Hin as [Hin | Hin]; [by eapply Hq in Hin |].
    apply in_app_or in Hin as [Hin | [[=] | [[=] | []]]].
    exists tr, ev, cr. split; [done | by eapply He].
Qed.

(** X8.  The manager of a run is built from the event alone: its username
    and password are what the resolver answered for the two lookup keys of
    the rule parameters; its tenant and hostname are [dsTenant] and
    [dsHostname], [None] when absent; its port is [dsPort], 443 when absent;
    and its flag is [False] without [dsIgnoreSslValidation], else 0 or 1 as
    [strtobool] reads the value. *)
Theorem manager_is_built_from_the_rule_parameters (env : Env) (event : dict)
    (calls : list call) (out : result dict) (m : Manager) :
  aws_config_rule_handler env event = (calls, out) →
  In (CallManager m) calls →
  ∃ (ev rp : dict) (c : Credentials),
    deserialize_blocks env event = ok ev ∧
    ev !! "ruleParameters" = Some (PDict rp) ∧
    rp !! "dsUsernameKey" = Some (username_key c) ∧
    rp !! "dsPasswordKey" = Some (password_key c) ∧
    get_username env c = ok (username m) ∧
    get_password env c = ok (password m) ∧
    tenant m = default PNone (rp !! "dsTenant") ∧
    hostname m = default PNone (rp !! "dsHostname") ∧
    port m = default (PInt 443) (rp !! "dsPort") ∧
    match rp !! "dsIgnoreSslValidation" with
    | Some v => strtobool v = ok (ignore_ssl_validation m) ∧
                (ignore_ssl_validation m = PInt 0 ∨ ignore_ssl_validation m = PInt 1)
    | None => ignore_ssl_validation m = PBool false
    end.
Proof.
  intros H Hin. pose proof (handler_path env event) as Hp. rewrite H in Hp.
  cbn [fst snd] in Hp.
  destruct (manager_call_inv _ _ _ _ _ Hp Hin) as (tr & ev & cr & Hv & Hcon).
  pose proof (validate_path env event) as Hvp. rewrite Hv in Hvp. cbn [fst snd] in Hvp.
  inversion Hvp as [ | | | | | | | | ev' rp c u p _ Hd Hrp Hu Hpw _ Hgu Hgp _]; subst.
  exists ev, rp, c. rewrite (connect_dict _ _ _ _ Hrp) in Hcon. unfold ssl_flag_of in *.
  destruct (rp !! "dsIgnoreSslValidation") as [v |].
  - destruct (strtobool v) as [e | flag] eqn:Hflag; [destruct Hcon |].
    apply authenticate_manager in Hcon as ->. cbn.
    split_and!; try done. by apply strtobool_ok in Hflag.
  - apply authenticate_manager in Hcon as ->. by split_and!.
Qed.

Lemma manager_is_built_from_the_rule_parameters_witness :
  let event := Scenario.event_with_parameter "dsIgnoreSslValidation" (PStr "True") in
  ∃ (ev rp : dict) (c : Credentials),
    deserialize_blocks (Sample.env []) event = ok ev ∧
    ev !! "ruleParameters" = Some (PDict rp) ∧
    rp !! "dsUsernameKey" = Some (username_key c) ∧
    rp !! "dsPasswordKey" = Some (password_key c) ∧
    get_username (Sample.env []) c = ok (PStr "admin") ∧
    get_password (Sample.env []) c = ok (PStr "secret") ∧
    PNone = default PNone (rp !! "dsTenant") ∧
    PNone = default PNone (rp !! "dsHostname") ∧
    PInt 443 = default (PInt 443) (rp !! "dsPort") ∧
    match rp !! "dsIgnoreSslValidation" with
    | Some v => strtobool v = ok (PInt 1) ∧ (PInt 1 = PInt 0 ∨ PInt 1 = PInt 1)
    | None => PInt 1 = PBool false
    end.
Proof.
  intros event.
  apply (manager_is_built_from_the_rule_parameters (Sample.env []) event
           (aws_config_rule_handler (Sample.env []) event).1
           (aws_config_rule_handler (Sample.env []) event).2
           {| username := PStr "admin"; password := PStr "secret"; tenant := PNone;
              hostname := PNone; port := PInt 443; ignore_ssl_validation := PInt 1 |}).
  - reflexivity.
  - vm_compute. tauto.
Defined.

(** X9.  When the constructor of the manager raises, the exception is
    swallowed and [mgr] stays unset: the handler calls nothing else on the
    manager, and goes on to submit [NON_COMPLIANT] for the resource id,
    without annotation. *)
Theorem constructor_failure_is_non_compliant (env : Env) (event ev rp : dict)
    (tr : list call) (ds_username ds_password instance_id flag : pyval) (err : exn) :
  validate env event = (tr, Normal (ev, Some (ds_username, ds_password))) →
  scope_filter ev = ok instance_id →
  truthy instance_id = true →
  ev !! "ruleParameters" = Some (PDict rp) →
  ssl_flag_of rp = ok flag →
  Manager_init env (manager_for ds_username ds_password rp flag) = raise err →
  ∃ (evaluation : Evaluation) (token : pyval) (r : dict),
    aws_config_rule_handler env event =
    ((tr ++ [CallManager (manager_for ds_username ds_password rp flag);
             CallBoto3Client "config"; CallPutEvaluations [evaluation] token])%list, ok r) ∧
    ComplianceType evaluation = "NON_COMPLIANT" ∧
    ComplianceResourceId evaluation = instance_id ∧
    Annotation evaluation = None ∧
    r !! "annotation" = None.
Proof.
  intros Hv Hs Ht Hrp Hflag Hinit.
  assert (He : evaluate env ev (Some (ds_username, ds_password)) instance_id
               = ([CallManager (manager_for ds_username ds_password rp flag)],
                  Normal (false, ""))).
  { unfold evaluate. rewrite (connect_dict _ _ _ _ Hrp), Hflag.
    unfold ok, authenticate, manager_for in *. cbv beta iota zeta. by rewrite Hinit. }
  destruct (handler_reports _ _ _ _ _ _ _ _ _ Hv Hs Ht He) as (rt & token & _ & _ & H).
  cbv zeta in H. eexists _, token, _. split; [exact H |].
  split_and!; [done | done | done |].
  destruct (put_evaluations env _ token); by simplify_map_eq.
Qed.

Lemma constructor_failure_is_non_compliant_witness :
  let env := Scenario.world (ok tt) (ok (PStr "admin")) (ok (PStr "secret"))
               (raise (Error "unreachable host")) (ok tt) (ok (Sample.one_host "On"))
               (ok tt) (ok (PDict ∅)) in
  ∃ (evaluation : Evaluation) (token : pyval) (r : dict),
    aws_config_rule_handler env (Sample.event "firewall") =
    ((Sample.credential_calls ++
      [CallManager (manager_for (PStr "admin") (PStr "secret")
                      (Sample.rule_parameters "firewall") (PBool false));
       CallBoto3Client "config"; CallPutEvaluations [evaluation] token])%list, ok r) ∧
    ComplianceType evaluation = "NON_COMPLIANT" ∧
    ComplianceResourceId evaluation = PStr "i-0abc" ∧
    Annotation evaluation = None ∧
    r !! "annotation" = None.
Proof.
  intros env.
  apply (constructor_failure_is_non_compliant env (Sample.event "firewall")
           (Sample.event "firewall") (Sample.rule_parameters "firewall")
           Sample.credential_calls (PStr "admin") (PStr "secret") (PStr "i-0abc")
           (PBool false) (Error "unreachable host"));
    reflexivity.
Defined.

(** X10.  A resource id that is true as a condition but is not text (a
    number, say) makes the handler raise [AttributeError] right after the
    inventory was fetched: the session is not closed and nothing is
    submitted. *)
Theorem non_text_instance_id_raises (env : Env) (event ev : dict) (tr tr1 : list call)
    (credentials : option (pyval * pyval)) (instance_id : pyval) (mgr : Manager)
    (computers : list (pyval * Computer)) :
  validate env event = (tr, Normal (ev, credentials)) →
  scope_filter ev = ok instance_id →
  truthy instance_id = true →
  (∀ s, instance_id ≠ PStr s) →
  connect env ev credentials = (tr1, Normal (Some mgr)) →
  computers_get env mgr = ok computers →
  aws_config_rule_handler env event =
  ((tr ++ tr1 ++ [CallComputersGet mgr])%list, raise AttributeError).
Proof.
  intros Hv Hs Ht Hn Hc Hg.
  destruct (validated_control _ _ _ _ _ Hv) as (key & c & Hk & _ & _).
  assert (Hl : target_of env instance_id = raise AttributeError).
  { destruct instance_id; try done. by edestruct Hn. }
  rewrite (handler_validated _ _ _ _ _ Hv). unfold evaluate_and_report.
  rewrite Hs, bind_pure_ok, Ht. unfold evaluate. rewrite Hc, bind_normal.
  unfold inspect. rewrite Hk, bind_pure_ok, Hg, bind_invoke_ok, Hl. done.
Qed.

Lemma non_text_instance_id_raises_witness :
  aws_config_rule_handler (Sample.env (Sample.one_host "On")) Scenario.event_with_numeric_id =
  ((Sample.credential_calls ++ [CallManager Sample.manager; CallSignIn Sample.manager] ++
    [CallComputersGet Sample.manager])%list, raise AttributeError).
Proof.
  apply (non_text_instance_id_raises (Sample.env (Sample.one_host "On"))
           Scenario.event_with_numeric_id Scenario.event_with_numeric_id
           Sample.credential_calls [CallManager Sample.manager; CallSignIn Sample.manager]
           (Some (PStr "admin", PStr "secret")) (PInt 5) Sample.manager
           (Sample.one_host "On"));
    try reflexivity.
  intros s. discriminate.
Defined.

(** ** The further properties on the sample run *)

Lemma returned_mapping_shapes_witness :
  let env := Sample.env (Sample.one_host "On") in
  let calls := Scenario.firewall_on_calls in
  let r := Scenario.firewall_on_result in
  (calls = [] ∧ r = {[ "result" := PStr "error" ]}) ∨
  (calls = [] ∧ r = {[ "requirements_not_met" := PStr credentials_message ]}) ∨
  (∃ c, calls = resolver_calls c ∧
        r = {[ "requirements_not_met" := PStr control_message ]}) ∨
  (last calls = Some (CallBoto3Client "config") ∧ r = ∅) ∨
  (∃ evaluation token,
     last calls = Some (CallPutEvaluations [evaluation] token) ∧
     match Annotation evaluation, put_evaluations env [evaluation] token with
     | None, inl _ => r = {[ "result" := PStr "failure" ]}
     | None, inr response =>
         r = <["response" := response]> {[ "result" := PStr "success" ]}
     | Some annotation, inl _ =>
         r = <["result" := PStr "failure"]> {[ "annotation" := PStr annotation ]}
     | Some annotation, inr response =>
         r = <["response" := response]> (<["result" := PStr "success"]>
               {[ "annotation" := PStr annotation ]})
     end).
Proof.
  intros env calls r.
  apply (returned_mapping_shapes env (Sample.event "firewall") calls r). reflexivity.
Defined.

Lemma submission_is_about_the_event_witness :
  let env := Sample.env (Sample.one_host "On") in
  Sample.event "firewall" !! "resultToken" = Some (PStr "token") ∧
  ∃ evaluation ev invoking_event item,
    [Scenario.firewall_on_evaluation] = [evaluation] ∧
    deserialize_blocks env (Sample.event "firewall") = ok ev ∧
    ev !! "invokingEvent" = Some invoking_event ∧
    py_getitem invoking_event "configurationItem" = ok item ∧
    py_getitem item "resourceType" = ok (ComplianceResourceType evaluation) ∧
    py_lower (ComplianceResourceType evaluation) = ok (Str.lower ec2_instance) ∧
    py_getitem item "resourceId" = ok (ComplianceResourceId evaluation) ∧
    truthy (ComplianceResourceId evaluation) = true ∧
    (ComplianceType evaluation = "COMPLIANT" ∨ ComplianceType evaluation = "NON_COMPLIANT") ∧
    OrderingTimestamp evaluation = datetime_now env.
Proof.
  intros env.
  apply (submission_is_about_the_event env (Sample.event "firewall")
           Scenario.firewall_on_calls (ok Scenario.firewall_on_result)
           [Scenario.firewall_on_evaluation] (PStr "token")).
  - reflexivity.
  - vm_compute. tauto.
Defined.


Lemma session_closed_when_handler_returns_witness :
  In (CallSignOut Sample.manager) Scenario.firewall_on_calls ∧
  sign_out (Sample.env (Sample.one_host "On")) Sample.manager = ok tt.
Proof.
  apply (session_closed_when_handler_returns (Sample.env (Sample.one_host "On"))
           (Sample.event "firewall") Scenario.firewall_on_calls Scenario.firewall_on_result
           Sample.manager).
  - reflexivity.
  - vm_compute. tauto.
Defined.

(** ** The classification rule and the scan *)

Lemma string_app_assoc (a b c : string) : (a ++ b) ++ c = a ++ b ++ c.
Proof.
  induction a as [| x a IH]; [done |].
  change (String x ((a ++ b) ++ c) = String x (a ++ b ++ c)). by rewrite IH.
Qed.

Lemma contains_trans (a b c : string) :
  Str.contains a b = true → Str.contains b c = true → Str.contains a c = true.
Proof.
  rewrite !contains_spec. intros (p1 & s1 & ->) (p2 & s2 & ->).
  exists (p2 ++ p1), (s1 ++ s2). by rewrite !string_app_assoc.
Qed.

(** X16.  Whatever the control, a status counts as protected only if it
    contains "on" with case ignored; so a status that protects under the
    rule of anti-malware, integrity monitoring or intrusion prevention also
    protects under the rule of the three other controls. *)
Theorem protection_needs_on (control_key control_status : string) :
  status_protects control_key control_status = true →
  contains_ignoring_case "On" control_status ∧
  status_protects "firewall" control_status = true ∧
  status_protects "web_reputation" control_status = true ∧
  status_protects "log_inspection" control_status = true.
Proof.
  intros H.
  assert (Hon : Str.contains (Str.lower "On") (Str.lower control_status) = true).
  { unfold status_protects in H.
    destruct (existsb _ ["anti_malware"; "integrity_monitoring"]).
    - apply orb_true_iff in H as [H | H]; by eapply contains_trans; [| exact H].
    - destruct (existsb _ ["intrusion_prevention"]); [| done].
      by eapply contains_trans; [| exact H]. }
  split; [by apply contains_lower_spec | by split_and!].
Qed.

Lemma protection_needs_on_witness :
  contains_ignoring_case "On" "Managed, on, real time" ∧
  status_protects "firewall" "Managed, on, real time" = true ∧
  status_protects "web_reputation" "Managed, on, real time" = true ∧
  status_protects "log_inspection" "Managed, on, real time" = true.
Proof.
  apply (protection_needs_on "anti_malware" "Managed, on, real time").
  reflexivity.
Defined.

(** Host records of other instances play no part in the scan. *)
Lemma scan_filter (env : Env) (control_key target : string) (computers : list (pyval * Computer))
    (st : bool * string) :
  scan env control_key target computers st =
  scan env control_key target (List.filter (λ x, host_matches env target x.2) computers) st.
Proof.
  revert st. induction computers as [| [id d] rest IH]; intros st; [done |].
  cbn [List.filter snd]. destruct (host_matches env target d) eqn:Hm; cbn [scan].
  - destruct (visit env control_key target d st) as [e | st']; [done |]. cbn. apply IH.
  - rewrite (visit_no_match _ _ _ _ _ Hm). cbn. apply IH.
Qed.

(** X17.  For one of the six controls, the protection flag the scan ends
    with does not depend on the order of the inventory, nor on the records
    of other instances: two inventories whose matching records are the same
    up to order give the same flag.  (The message may differ: it is that of
    the last matching record.) *)
Theorem flag_is_independent_of_inventory_order (env : Env) (control_key target : string)
    (computers computers' : list (pyval * Computer)) :
  In control_key valid_controls →
  List.filter (λ x, host_matches env target x.2) computers ≡ₚ
  List.filter (λ x, host_matches env target x.2) computers' →
  ∃ is_protected detailed_msg detailed_msg',
    scan env control_key target computers (false, "") = ok (is_protected, detailed_msg) ∧
    scan env control_key target computers' (false, "") = ok (is_protected, detailed_msg').
Proof.
  intros Hk Hperm.
  rewrite (scan_filter _ _ _ computers), (scan_filter _ _ _ computers').
  destruct (scan_valid env control_key target
              (List.filter (λ x, host_matches env target x.2) computers) false "" Hk)
    as (p & m & -> & Hp & _).
  destruct (scan_valid env control_key target
              (List.filter (λ x, host_matches env target x.2) computers') false "" Hk)
    as (p' & m' & -> & Hp' & _).
  exists p, m, m'. split; [done |].
  assert (p = true ↔ p' = true) as Hiff.
  { rewrite Hp, Hp'. split; (intros [[=] | (id & d & Hin & Hrest)]; right; exists id, d;
      split; [| done]); apply list_elem_of_In; apply list_elem_of_In in Hin.
    - by rewrite <- Hperm.
    - by rewrite Hperm. }
  destruct p, p'; try done; [by destruct (proj1 Hiff) | by destruct (proj2 Hiff)].
Qed.

Lemma flag_is_independent_of_inventory_order_witness :
  ∃ is_protected detailed_msg detailed_msg',
    scan (Sample.env []) "firewall" "i-0abc"
      [(PInt 1, Sample.host (Some "i-0abc") "On"); (PInt 2, Sample.host (Some "I-0ABC") "Off");
       (PInt 3, Sample.host (Some "i-0other") "Off")] (false, "")
    = ok (is_protected, detailed_msg) ∧
    scan (Sample.env []) "firewall" "i-0abc"
      [(PInt 2, Sample.host (Some "I-0ABC") "Off"); (PInt 1, Sample.host (Some "i-0abc") "On")]
      (false, "")
    = ok (is_protected, detailed_msg').
Proof.
  apply (flag_is_independent_of_inventory_order (Sample.env []) "firewall" "i-0abc"
           [(PInt 1, Sample.host (Some "i-0abc") "On");
            (PInt 2, Sample.host (Some "I-0ABC") "Off");
            (PInt 3, Sample.host (Some "i-0other") "Off")]
           [(PInt 2, Sample.host (Some "I-0ABC") "Off");
            (PInt 1, Sample.host (Some "i-0abc") "On")]).
  - right. right. left. reflexivity.
  - vm_compute. apply perm_swap.
Defined.

(** ** The case of the control name *)

Lemma lower_ascii_idemp (c : ascii) : Str.lower_ascii (Str.lower_ascii c) = Str.lower_ascii c.
Proof. by destruct c as [[] [] [] [] [] [] [] []]. Qed.

Lemma lower_unfold (c : ascii) (s : string) :
  Str.lower (String c s) = String (Str.lower_ascii c) (Str.lower s).
Proof. reflexivity. Qed.

Lemma lower_idemp (s : string) : Str.lower (Str.lower s) = Str.lower s.
Proof.
  induction s as [| c s IH]; [done |].
  by rewrite !lower_unfold, lower_ascii_idemp, IH.
Qed.

Section ControlCase.
Context (env : Env) (s : string) (rp ev1 ev2 : dict).
Hypothesis Hcontrol : rp !! "dsControl" = Some (PStr s).
Hypothesis Hrp1 : ev1 !! "ruleParameters" = Some (PDict rp).
Hypothesis Hrp2 :
  ev2 !! "ruleParameters" = Some (PDict (<["dsControl" := PStr (Str.lower s)]> rp)).
Hypothesis Hinvoking : ev1 !! "invokingEvent" = ev2 !! "invokingEvent".
Hypothesis Htoken : ev1 !! "resultToken" = ev2 !! "resultToken".

Lemma lowered_lookup (key : string) :
  key ≠ "dsControl" →
  (<["dsControl" := PStr (Str.lower s)]> rp : dict) !! key = rp !! key.
Proof. intros H. by rewrite lookup_insert_ne. Qed.

Lemma lowered_has (key : string) :
  key ≠ "dsControl" → has (<["dsControl" := PStr (Str.lower s)]> rp) key = has rp key.
Proof. intros H. unfold has. by rewrite lowered_lookup. Qed.

Lemma resolve_credentials_lowered :
  resolve_credentials env (PDict (<["dsControl" := PStr (Str.lower s)]> rp)) =
  resolve_credentials env (PDict rp).
Proof.
  unfold resolve_credentials. rewrite !credentials_missing_dict, !lowered_has by done.
  unfold py_getitem. by rewrite !lowered_lookup by done.
Qed.

Lemma control_invalid_lowered :
  control_invalid (PDict (<["dsControl" := PStr (Str.lower s)]> rp)) =
  control_invalid (PDict rp).
Proof.
  unfold control_invalid, py_or, py_not. rewrite !py_contains_dict.
  rewrite (has_Some _ _ _ Hcontrol), (has_Some _ "dsControl" (PStr (Str.lower s)))
    by apply lookup_insert_eq.
  cbn -[existsb valid_controls]. rewrite lookup_insert_eq, Hcontrol.
  cbn -[existsb valid_controls]. by rewrite lower_idemp.
Qed.

Lemma rule_parameters_lowered : rule_parameters env ev2 = rule_parameters env ev1.
Proof.
  unfold rule_parameters, require_control.
  by rewrite Hrp1, Hrp2, resolve_credentials_lowered, control_invalid_lowered.
Qed.

Lemma connect_lowered (credentials : option (pyval * pyval)) :
  connect env ev2 credentials = connect env ev1 credentials.
Proof.
  rewrite (connect_dict _ _ _ _ Hrp1), (connect_dict _ _ _ _ Hrp2).
  unfold ssl_flag_of. by rewrite !lowered_lookup by done.
Qed.

Lemma control_key_of_lowered : control_key_of ev2 = control_key_of ev1.
Proof.
  unfold control_key_of. rewrite (py_getitem_dict _ _ _ Hrp1), (py_getitem_dict _ _ _ Hrp2).
  cbn. rewrite lookup_insert_eq, Hcontrol. cbn. by rewrite lower_idemp.
Qed.

Lemma evaluate_and_report_lowered (credentials : option (pyval * pyval)) :
  evaluate_and_report env ev2 credentials = evaluate_and_report env ev1 credentials.
Proof.
  unfold evaluate_and_report, scope_filter. rewrite <- Hinvoking.
  match goal with |- context [pure ?r ≫= _] => destruct r as [e | iid] end; [done |].
  rewrite !bind_pure_ok. unfold evaluate, inspect.
  rewrite connect_lowered, control_key_of_lowered.
  destruct (if truthy iid then _ else _) as [tr [[p msg] | r | e]]; [| done..].
  rewrite !bind_normal. unfold report, py_getitem. by rewrite <- Hinvoking, <- Htoken.
Qed.

End ControlCase.

(** X18.  The name of the control is read without regard to case from
    beginning to end: replacing [dsControl] by its lowercase form changes
    neither the calls nor the result of a run. *)
Theorem control_name_case_is_ignored (env : Env) (event rp : dict) (s : string) :
  event !! "ruleParameters" = Some (PDict rp) →
  rp !! "dsControl" = Some (PStr s) →
  aws_config_rule_handler env event =
  aws_config_rule_handler env
    (<["ruleParameters" := PDict (<["dsControl" := PStr (Str.lower s)]> rp)]> event).
Proof.
  intros Hrp Hc.
  set (event' := <["ruleParameters" := PDict (<["dsControl" := PStr (Str.lower s)]> rp)]> event).
  assert (Hk : required_keys event' = required_keys event).
  { unfold required_keys, event'. by rewrite !(has_insert_present _ _ _ _ _ Hrp). }
  unfold aws_config_rule_handler.
  destruct (required_keys_cases event) as [[_ H1] | H1].
  { unfold validate. by rewrite Hk, H1. }
  assert (H2 : required_keys event' = ([], Normal tt)) by congruence.
  assert (Hd' : deserialize_blocks env event' =
                match deserialize_blocks env event with
                | inl e => inl e
                | inr ev => inr (<["ruleParameters" :=
                                   PDict (<["dsControl" := PStr (Str.lower s)]> rp)]> ev)
                end).
  { unfold deserialize_blocks.
    rewrite (deserialize_dict env _ event rp Hrp).
    rewrite (deserialize_dict env _ event' (<["dsControl" := PStr (Str.lower s)]> rp))
      by apply lookup_insert_eq.
    cbn. by apply deserialize_insert_ne. }
  destruct (deserialize_blocks env event) as [e | ev] eqn:Hd.
  { unfold validate. by rewrite H1, H2, !bind_normal, Hd, Hd'. }
  rewrite (validate_unfold _ _ _ H1 Hd), (validate_unfold _ _ _ H2 Hd').
  assert (Hrp1 : ev !! "ruleParameters" = Some (PDict rp)).
  { unfold deserialize_blocks in Hd. rewrite (deserialize_dict env _ event rp Hrp) in Hd.
    cbn in Hd.
    by rewrite (deserialize_other env "invokingEvent" "ruleParameters" _ _ ltac:(done) Hd). }
  rewrite (rule_parameters_lowered env s rp ev _ Hc Hrp1 (lookup_insert_eq _ _ _)).
  destruct (rule_parameters env ev) as [tr [c | r | e]]; [| done..].
  rewrite !bind_normal. cbn.
  rewrite (evaluate_and_report_lowered env s rp ev _ Hc Hrp1 (lookup_insert_eq _ _ _));
    [done | by rewrite lookup_insert_ne | by rewrite lookup_insert_ne].
Qed.

Lemma control_name_case_is_ignored_witness :
  aws_config_rule_handler (Sample.env (Sample.one_host "On")) (Sample.event "FireWall") =
  aws_config_rule_handler (Sample.env (Sample.one_host "On"))
    (<["ruleParameters" :=
       PDict (<["dsControl" := PStr (Str.lower "FireWall")]> (Sample.rule_parameters "FireWall"))]>
       (Sample.event "FireWall")).
Proof.
  apply (control_name_case_is_ignored (Sample.env (Sample.one_host "On"))
           (Sample.event "FireWall") (Sample.rule_parameters "FireWall") "FireWall");
    reflexivity.
Defined.
